(** * Radio FM MCP server: the POST /mcp handler and its text formatters

    A shallow embedding of [src/index.ts] (the TypeScript source) and of the
    compiled build that still renders the podcast section, followed by the
    properties of the request/response mapping.

    Conventions of the embedding:
    - a value that comes out of [express.json()] is a [JsVal]; an object keeps
      its members in source order and a repeated key is read at its last
      occurrence, as [JSON.parse] does;
    - a string is held as its UTF-8 bytes, a lone surrogate as the three
      bytes of its generalised form; [length] and [substring] count UTF-16
      code units over those bytes, as JavaScript does;
    - numbers are the safe integers (below 2^53 in magnitude), which print
      in plain decimal: the handler echoes [id] and otherwise only tests a
      request value for truthiness or prints it;
    - the upstream body is typed as the [ApiResponse] interface declares it;
      station and podcast records are kept in their runtime form, objects with
      string members, because the handler reaches them through a cast;
    - what the JavaScript engine and its locale decide (the text of
      [parseInt(s).toLocaleString()], the message of an engine [TypeError])
      is the [Host] class;
    - the handler is a tree of type [Prog]: it returns, throws, or awaits one
      [axios.get] and continues with the outcome. *)

From Stdlib Require Import String Ascii List ZArith Lia Bool Arith.
From Stdlib Require Decimal DecimalFacts DecimalNat DecimalString.
Import ListNotations.
Local Open Scope list_scope.
Local Open Scope string_scope.

(** ** Strings and literals *)

(** ['\n'] *)
Definition nl : string := String "010"%char EmptyString.

(** A double quote inside a template literal. *)
Definition dq : string := String "034"%char EmptyString.

(** [`${n}`] for an array length or a running index. *)
Definition decimal (n : nat) : string :=
  DecimalString.NilEmpty.string_of_uint (Nat.to_uint n).

(** [`${n}`] for an integer number.  Exact for the safe integers, the
    numbers a [JNum] stands for; see [safeNumbers]. *)
Definition decimalZ (n : Z) : string :=
  DecimalString.NilZero.string_of_int (Z.to_int n).

(** [lines.push(item, ...)], as a new array *)
Definition push {A : Type} (lines items : list A) : list A :=
  (lines ++ items)%list.

(** [lines.join(sep)] *)
Definition join (sep : string) (lines : list string) : string :=
  String.concat sep lines.

(** ** Length and substring in UTF-16 code units

    A JavaScript string is a sequence of UTF-16 code units.  Over its UTF-8
    bytes, a byte below 128 and the first byte of a two- or three-byte
    character stand for one code unit, the first byte of a four-byte
    character for two (a surrogate pair), and a continuation byte for
    none. *)

Definition codeUnits (b : ascii) : nat :=
  let n := nat_of_ascii b in
  if Nat.ltb n 128 then 1
  else if Nat.ltb n 192 then 0
  else if Nat.ltb n 240 then 1
  else 2.

(** [s.length] *)
Fixpoint jsLength (s : string) : nat :=
  match s with
  | EmptyString => 0
  | String b rest => codeUnits b + jsLength rest
  end.

(** The three bytes of the surrogate [110110 w zy], [w] of four bits and
    [zy] of six. *)
Definition surrogateBytes (w zy : nat) : string :=
  String (ascii_of_nat 237)
    (String (ascii_of_nat (160 + w mod 16))
       (String (ascii_of_nat (128 + zy mod 64)) EmptyString)).

(** The high surrogate of the four-byte character that starts with [lead]
    and goes on with [tail]: with [u] the five top bits of the code point,
    [z] the next four and [y] the next two, it is [110110 (u-1) z y]. *)
Definition highSurrogate (lead : ascii) (tail : string) : string :=
  let b1 := match tail with String b _ => nat_of_ascii b | _ => 0 end in
  let b2 :=
    match tail with
    | String _ (String b _) => nat_of_ascii b
    | _ => 0
    end in
  let u := (nat_of_ascii lead mod 8) * 4 + (b1 / 16) mod 4 in
  let z := b1 mod 16 in
  let y := (b2 / 16) mod 4 in
  surrogateBytes (u - 1) (z * 4 + y).

(** [s.substring(0, n)]: the first [n] code units.  A continuation byte
    goes with the character already taken; a cut between the two units of a
    surrogate pair leaves the high surrogate. *)
Fixpoint jsSubstring0 (n : nat) (s : string) : string :=
  match s with
  | EmptyString => EmptyString
  | String b rest =>
      match codeUnits b, n with
      | 0, _ => String b (jsSubstring0 n rest)
      | _, 0 => EmptyString
      | 1, S m => String b (jsSubstring0 m rest)
      | _, 1 => highSurrogate b rest
      | _, S (S m) => String b (jsSubstring0 m rest)
      end
  end.

(** ** JSON values as JavaScript sees them *)

#[local] Set Warnings "-register-all".

Inductive JsVal : Type :=
| JUndefined
| JNull
| JBool (b : bool)
| JNum (n : Z)
| JStr (s : string)
| JArr (items : list JsVal)
| JObj (props : list (string * JsVal)).

(** Own property of a parsed object: the last member with that key. *)
Fixpoint own {V : Type} (props : list (string * V)) (key : string) : option V :=
  match props with
  | [] => None
  | (k, v) :: rest =>
      match own rest key with
      | Some w => Some w
      | None => if String.eqb k key then Some v else None
      end
  end.

(** [v === undefined || v === null] *)
Definition nullish (v : JsVal) : bool :=
  match v with
  | JUndefined | JNull => true
  | _ => false
  end.

(** [v.key] on a value that is not nullish, for the keys the handler reads:
    [method], [params], [id], [name], [arguments] and [query].  None of them
    is an index, [length] or a prototype member, so only a parsed object can
    hold one. *)
Definition field (v : JsVal) (key : string) : JsVal :=
  match v with
  | JObj props =>
      match own props key with
      | Some w => w
      | None => JUndefined
      end
  | _ => JUndefined
  end.

(** [v?.key] *)
Definition optField (v : JsVal) (key : string) : JsVal :=
  if nullish v then JUndefined else field v key.

(** [v === s] for a string literal [s] *)
Definition isStr (v : JsVal) (s : string) : bool :=
  match v with
  | JStr t => String.eqb t s
  | _ => false
  end.

(** ToBoolean: [!v] is [negb (truthy v)]. *)
Definition truthy (v : JsVal) : bool :=
  match v with
  | JUndefined | JNull => false
  | JBool b => b
  | JNum n => negb (n =? 0)%Z
  | JStr s => negb (String.eqb s EmptyString)
  | JArr _ | JObj _ => true
  end.

(** ToString, as a template literal applies it.  [None] is the [TypeError]
    of an object that cannot be converted to a primitive: a parsed object
    with an own member [toString] hides [Object.prototype.toString], the
    member is not callable, and [valueOf] gives back the object.  An array
    prints through [join(",")], where [null] and [undefined] print as
    nothing. *)
Fixpoint toString (v : JsVal) : option string :=
  match v with
  | JUndefined => Some "undefined"
  | JNull => Some "null"
  | JBool true => Some "true"
  | JBool false => Some "false"
  | JNum n => Some (decimalZ n)
  | JStr s => Some s
  | JArr items =>
      let element (x : JsVal) : option string :=
        if nullish x then Some EmptyString else toString x in
      (fix joined (l : list JsVal) : option string :=
         match l with
         | [] => Some EmptyString
         | [x] => element x
         | x :: rest =>
             match element x, joined rest with
             | Some s, Some r => Some (s ++ "," ++ r)
             | _, _ => None
             end
         end) items
  | JObj props =>
      match own props "toString" with
      | Some _ => None
      | None => Some "[object Object]"
      end
  end.

(** ** Exceptions and the engine *)

(** The engine-raised [TypeError]s the handler can meet. *)
Inductive Fault : Type :=
| CannotDestructure (property source : string) (value : JsVal)
| CannotRead (key : string) (value : JsVal)
| CannotConvertToPrimitive.

(** A thrown value.  [Error message] is [new Error(message)] or the
    rejection of [axios.get]; only [.message] is ever read from it. *)
Inductive Exn : Type :=
| Error (message : string)
| TypeError (fault : Fault).

(** What the host decides. *)
Class Host : Type := {
  (** [s => parseInt(s).toLocaleString()], in the locale of the process *)
  localeCount : string -> string;
  (** the message the engine gives a [TypeError] *)
  typeErrorMessage : Fault -> string
}.

(** ** The upstream interfaces of [src/index.ts] *)

Record RadioStation : Type := {
  st_id : string;
  st_name : string;
  st_logo : string;
  st_weburl : string;
  st_shorturl : string;
  st_genre : string;
  st_lang : string;
  language : string;
  st_bc_freq : string;
  st_city : string;
  st_state : string;
  country_name_rs : string;
  st_country : string;
  st_play_cnt : string;
  st_fav_cnt : string;
  stream_link : string;
  stream_type : string;
  stream_bitrate : string;
  deeplink : string
}.

Record Podcast : Type := {
  p_id : string;
  p_name : string;
  p_desc : string;
  p_lang : string;
  p_image : string;
  p_email : string;
  cat_name : string;
  total_stream : string;
  p_deeplink : string;
  cc_code : string
}.

(** A record at run time: an object whose members are strings.  The
    interfaces are erased, so a member may be missing. *)
Definition Obj : Type := list (string * string).

Definition RadioStation_obj (s : RadioStation) : Obj :=
  [ ("st_id", st_id s); ("st_name", st_name s); ("st_logo", st_logo s);
    ("st_weburl", st_weburl s); ("st_shorturl", st_shorturl s);
    ("st_genre", st_genre s); ("st_lang", st_lang s);
    ("language", language s); ("st_bc_freq", st_bc_freq s);
    ("st_city", st_city s); ("st_state", st_state s);
    ("country_name_rs", country_name_rs s); ("st_country", st_country s);
    ("st_play_cnt", st_play_cnt s); ("st_fav_cnt", st_fav_cnt s);
    ("stream_link", stream_link s); ("stream_type", stream_type s);
    ("stream_bitrate", stream_bitrate s); ("deeplink", deeplink s) ].

Definition Podcast_obj (p : Podcast) : Obj :=
  [ ("p_id", p_id p); ("p_name", p_name p); ("p_desc", p_desc p);
    ("p_lang", p_lang p); ("p_image", p_image p); ("p_email", p_email p);
    ("cat_name", cat_name p); ("total_stream", total_stream p);
    ("deeplink", p_deeplink p); ("cc_code", cc_code p) ].

(** [`${record.key}`]: a missing member prints as [undefined]. *)
Definition show (record : Obj) (key : string) : string :=
  match own record key with
  | Some s => s
  | None => "undefined"
  end.

(** [record.key !== s] for a string literal [s] *)
Definition differs (member : option string) (s : string) : bool :=
  match member with
  | Some t => negb (String.eqb t s)
  | None => true
  end.

Module Group.
(** One element of [data.Data]: [{ type, data }]. *)
Record t : Type := make { type : string; data : list Obj }.
End Group.

Module ApiResponse.
(** The inner [data] object.  [Data] is optional: the handler tests
    [!results]. *)
Record payload : Type := {
  ErrorCode : Z;
  ErrorMessage : string;
  Data : option (list Group.t)
}.

Record t : Type := {
  http_response_code : Z;
  http_response_message : string;
  data : payload
}.
End ApiResponse.

(** ** The formatters *)

Section Formatters.
Context {host : Host}.

(** The array [lines] of [formatRadioStation] just before [join]. *)
Definition stationLines (station : Obj) (index : nat) : list string :=
  let lines :=
    [ decimal index ++ ". " ++ show station "st_name";
      "Location: " ++ show station "st_city" ++ ", "
        ++ show station "st_state" ++ ", " ++ show station "country_name_rs";
      "Language: " ++ show station "language";
      "Genre: " ++ show station "st_genre" ] in
  let lines :=
    if differs (own station "st_bc_freq") "~"
    then push lines [ "Frequency: " ++ show station "st_bc_freq" ]
    else lines in
  push lines
    [ "Stream: " ++ show station "stream_type" ++ " "
        ++ show station "stream_bitrate" ++ "kbps";
      "Plays: " ++ localeCount (show station "st_play_cnt");
      "Listen:'https://appradiofm.com/radioplay/' "
        ++ show station "st_shorturl" ].

Definition formatRadioStation (station : Obj) (index : nat) : string :=
  join nl (stationLines station index).

(** [podcast.p_desc], when it is truthy. *)
Definition description (podcast : Obj) : option string :=
  match own podcast "p_desc" with
  | Some d => if String.eqb d EmptyString then None else Some d
  | None => None
  end.

(** [shortDesc] *)
Definition shortDesc (d : string) : string :=
  if Nat.ltb 100 (jsLength d)
  then jsSubstring0 100 d ++ "..."
  else d.

(** The array [lines] of [formatPodcast] just before [join]. *)
Definition podcastLines (podcast : Obj) (index : nat) : list string :=
  let lines :=
    [ decimal index ++ ". " ++ show podcast "p_name";
      "Category: " ++ show podcast "cat_name";
      "Language: " ++ show podcast "p_lang" ] in
  let lines :=
    match description podcast with
    | Some d => push lines [ "Description: " ++ shortDesc d ]
    | None => lines
    end in
  push lines
    [ "Streams: " ++ localeCount (show podcast "total_stream");
      "Listen: " ++ show podcast "deeplink" ].

Definition formatPodcast (podcast : Obj) (index : nat) : string :=
  join nl (podcastLines podcast index).

End Formatters.

(** ** Programs: return, throw, or await one HTTP GET *)

Module Axios.
(** [axios.get(url, { params, timeout })] *)
Record Call : Type := {
  url : string;
  params : list (string * JsVal);
  timeout : Z
}.

(** How the awaited promise settles: with a response whose [data] is the
    upstream body, or rejected with an error carrying a message (timeout,
    network failure, status outside 2xx). *)
Inductive Outcome : Type :=
| Fulfilled (data : ApiResponse.t)
| Rejected (message : string).
End Axios.

Inductive Prog (A : Type) : Type :=
| Ret (a : A)
| Throw (e : Exn)
| AxiosGet (call : Axios.Call) (k : Axios.Outcome -> Prog A).

Arguments Ret {A} a.
Arguments Throw {A} e.
Arguments AxiosGet {A} call k.

Fixpoint bind {A B : Type} (p : Prog A) (f : A -> Prog B) : Prog B :=
  match p with
  | Ret a => f a
  | Throw e => Throw e
  | AxiosGet call k => AxiosGet call (fun outcome => bind (k outcome) f)
  end.

Declare Scope prog_scope.
Delimit Scope prog_scope with prog.
Notation "x <- p ;; q" := (bind p (fun x => q))
  (at level 61, p at next level, right associativity) : prog_scope.
Local Open Scope prog_scope.

(** [try { p } catch (error) { h error }] *)
Fixpoint tryCatch {A : Type} (p : Prog A) (h : Exn -> Prog A) : Prog A :=
  match p with
  | Ret a => Ret a
  | Throw e => h e
  | AxiosGet call k => AxiosGet call (fun outcome => tryCatch (k outcome) h)
  end.

(** [await axios.get(...)]: the response, or the rejection rethrown. *)
Definition axiosGet (call : Axios.Call) : Prog ApiResponse.t :=
  AxiosGet call (fun outcome =>
    match outcome with
    | Axios.Fulfilled data => Ret data
    | Axios.Rejected message => Throw (Error message)
    end).

(** [const { ... } = v]: a nullish [v] cannot be destructured. *)
Definition destructure (property source : string) (v : JsVal) : Prog unit :=
  if nullish v
  then Throw (TypeError (CannotDestructure property source v))
  else Ret tt.

(** [v.key] *)
Definition get (v : JsVal) (key : string) : Prog JsVal :=
  if nullish v then Throw (TypeError (CannotRead key v)) else Ret (field v key).

(** [`${v}`] *)
Definition str (v : JsVal) : Prog string :=
  match toString v with
  | Some s => Ret s
  | None => Throw (TypeError CannotConvertToPrimitive)
  end.

(** The upstream service: what each GET settles with. *)
Definition Upstream : Type := Axios.Call -> Axios.Outcome.

(** One run of a program against an upstream: the GETs issued, in order,
    and the result, [inl] for an exception that escapes. *)
Fixpoint run {A : Type} (upstream : Upstream) (p : Prog A)
  : list Axios.Call * (Exn + A) :=
  match p with
  | Ret a => ([], inr a)
  | Throw e => ([], inl e)
  | AxiosGet call k =>
      let (calls, result) := run upstream (k (upstream call)) in
      (call :: calls, result)
  end.

(** ** The POST /mcp handler *)

Definition RADIOFM_API_BASE : string :=
  "https://devappradiofm.radiofm.co/rfm/api".

(** ["s"] inside a template literal *)
Definition quoted (s : string) : string := dq ++ s ++ dq.

(** [{ jsonrpc: '2.0', id, result }].  A key whose value is [undefined] is
    dropped when the object is serialised. *)
Definition resultEnvelope (id result : JsVal) : JsVal :=
  JObj [ ("jsonrpc", JStr "2.0"); ("id", id); ("result", result) ].

(** [{ jsonrpc: '2.0', id, error: { code, message } }] *)
Definition errorEnvelope (id : JsVal) (code : Z) (message : string) : JsVal :=
  JObj [ ("jsonrpc", JStr "2.0"); ("id", id);
         ("error", JObj [ ("code", JNum code); ("message", JStr message) ]) ].

Definition initializeResult : JsVal :=
  JObj [ ("protocolVersion", JStr "2024-11-05");
         ("capabilities", JObj [ ("tools", JObj []) ]);
         ("serverInfo", JObj [ ("name", JStr "radiofm-mcp-server");
                               ("version", JStr "1.0.0") ]) ].

Definition toolsListResult : JsVal :=
  JObj [ ("tools", JArr [
    JObj [ ("name", JStr "search_radio_stations");
           ("description", JStr "Search for radio stations and podcasts worldwide by name, location, language, or genre");
           ("inputSchema", JObj [
              ("type", JStr "object");
              ("properties", JObj [
                 ("query", JObj [
                    ("type", JStr "string");
                    ("description", JStr ("Search query (e.g., " ++ quoted "BBC"
                       ++ ", " ++ quoted "India" ++ ", " ++ quoted "Hindi"
                       ++ ", " ++ quoted "Jazz" ++ ")")) ]) ]);
              ("required", JArr [ JStr "query" ]) ]) ] ]) ].

(** [{ content: [{ type: 'text', text }] }] *)
Definition textContent (text : string) : JsVal :=
  JObj [ ("content", JArr [ JObj [ ("type", JStr "text"); ("text", JStr text) ] ]) ].

(** The text returned when the result list is empty or absent. *)
Definition noResults (query : string) : string :=
  "🔍 No results found for " ++ quoted query ++ nl ++ nl
  ++ "Try searching with:" ++ nl
  ++ "- Station name (e.g., " ++ quoted "BBC" ++ ", " ++ quoted "NPR" ++ ")" ++ nl
  ++ "- Country (e.g., " ++ quoted "UK" ++ ", " ++ quoted "USA" ++ ", "
  ++ quoted "India" ++ ")" ++ nl
  ++ "- Language (e.g., " ++ quoted "English" ++ ", " ++ quoted "Spanish" ++ ")" ++ nl
  ++ "- Genre (e.g., " ++ quoted "Jazz" ++ ", " ++ quoted "News" ++ ", "
  ++ quoted "Rock" ++ ")".

(** [items.map((item, index) => render(item, index + 1))] *)
Definition mapFromOne {A : Type} (render : A -> nat -> string) (items : list A)
  : list string :=
  map (fun entry => render (snd entry) (fst entry + 1))
      (combine (seq 0 (length items)) items).

(** [results.find((r) => r.type === tag)] *)
Definition findGroup (tag : string) (results : list Group.t) : option Group.t :=
  find (fun r => String.eqb (Group.type r) tag) results.

(** [error.message] *)
Definition message {host : Host} (error : Exn) : string :=
  match error with
  | Error m => m
  | TypeError fault => typeErrorMessage fault
  end.

(** [s || fallback] on strings *)
Definition orElse (s fallback : string) : string :=
  if String.eqb s EmptyString then fallback else s.

(** The one upstream request: [GET {base}/new_combo_search.php?srch=query],
    bounded by 15 seconds. *)
Definition searchRequest (query : JsVal) : Axios.Call :=
  {| Axios.url := RADIOFM_API_BASE ++ "/new_combo_search.php";
     Axios.params := [ ("srch", query) ];
     Axios.timeout := 15000 |}.

Section Handler.
Context {host : Host}.

(** The array [sections] of [src/index.ts] just before [join]: the header,
    the radio block, the closing line.  The podcast block is commented out
    in this file. *)
Definition searchSections (query : string) (results : list Group.t)
  : list string :=
  let sections := [ "Search Results for " ++ quoted query ] in
  let sections :=
    match findGroup "radio" results with
    | Some radioData =>
        if Nat.ltb 0 (length (Group.data radioData)) then
          let stations := Group.data radioData in
          push sections
            ((nl ++ "RADIO STATIONS (" ++ decimal (length stations) ++ ")")
             :: mapFromOne formatRadioStation stations)
        else sections
    | None => sections
    end in
  push sections
    [ nl ++ "Tap on any " ++ quoted "Listen" ++ " link to play on radiofm.co" ].

(** The rest of the [tools/call] branch once [axios.get] has resolved
    with [apiData = response.data]. *)
Definition afterAwait (sections : string -> list Group.t -> list string)
  (id query : JsVal) (apiData : ApiResponse.t) : Prog JsVal :=
  if negb (ApiResponse.ErrorCode (ApiResponse.data apiData) =? 0)%Z then
    Throw (Error (ApiResponse.ErrorMessage (ApiResponse.data apiData)))
  else
    match ApiResponse.Data (ApiResponse.data apiData) with
    | None | Some [] =>
        q <- str query ;;
        Ret (resultEnvelope id (textContent (noResults q)))
    | Some results =>
        q <- str query ;;
        Ret (resultEnvelope id (textContent (join nl (sections q results))))
    end.

(** The body of [try].  The two builds differ only in how the sections are
    assembled, which is the argument [sections]. *)
Definition tryBlock (sections : string -> list Group.t -> list string)
  (body : JsVal) : Prog JsVal :=
  _ <- destructure "method" "req.body" body ;;
  let method := field body "method" in
  let params := field body "params" in
  let id := field body "id" in
  if isStr method "initialize" then
    Ret (resultEnvelope id initializeResult)
  else if isStr method "tools/list" then
    Ret (resultEnvelope id toolsListResult)
  else if isStr method "tools/call" then
    _ <- destructure "name" "params" params ;;
    let name := field params "name" in
    let args := field params "arguments" in
    if isStr name "search_radio_stations" then
      let query := optField args "query" in
      if negb (truthy query) then
        Throw (Error "Search query is required")
      else
        apiData <- axiosGet (searchRequest query) ;;
        afterAwait sections id query apiData
    else
      n <- str name ;;
      Throw (Error ("Unknown tool: " ++ n))
  else
    m <- str method ;;
    Throw (Error ("Unknown method: " ++ m)).

(** The body of [catch]; [console.error] only logs. *)
Definition catchBlock (body : JsVal) (error : Exn) : Prog JsVal :=
  id <- get body "id" ;;
  Ret (errorEnvelope id (-32000)
         (orElse (message error) "Internal server error")).

(** [app.post('/mcp', ...)]: the value handed to [res.json]. *)
Definition mcpPost (sections : string -> list Group.t -> list string)
  (body : JsVal) : Prog JsVal :=
  tryCatch (tryBlock sections body) (catchBlock body).

(** The handler of [src/index.ts]. *)
Definition handler (body : JsVal) : Prog JsVal :=
  mcpPost searchSections body.

End Handler.

(** ** The compiled build that renders podcasts

    The compiled [index.js] whose [formatRadioStation] links through
    [deeplink] and whose handler has the podcast block in place.  Everything
    else is as in [src/index.ts], [formatPodcast] included. *)

Module Compiled.
Section Build.
Context {host : Host}.

Definition stationLines (station : Obj) (index : nat) : list string :=
  let lines :=
    [ decimal index ++ ". " ++ show station "st_name";
      "Location: " ++ show station "st_city" ++ ", "
        ++ show station "st_state" ++ ", " ++ show station "country_name_rs";
      "Language: " ++ show station "language";
      "Genre: " ++ show station "st_genre" ] in
  let lines :=
    if differs (own station "st_bc_freq") "~"
    then push lines [ "Frequency: " ++ show station "st_bc_freq" ]
    else lines in
  push lines
    [ "Stream: " ++ show station "stream_type" ++ " "
        ++ show station "stream_bitrate" ++ "kbps";
      "Plays: " ++ localeCount (show station "st_play_cnt");
      "Listen:" ++ show station "deeplink" ].

Definition formatRadioStation (station : Obj) (index : nat) : string :=
  join nl (stationLines station index).

Definition searchSections (query : string) (results : list Group.t)
  : list string :=
  let sections := [ "Search Results for " ++ quoted query ] in
  let sections :=
    match findGroup "radio" results with
    | Some radioData =>
        if Nat.ltb 0 (length (Group.data radioData)) then
          let stations := Group.data radioData in
          push sections
            ((nl ++ "RADIO STATIONS (" ++ decimal (length stations) ++ ")")
             :: mapFromOne formatRadioStation stations)
        else sections
    | None => sections
    end in
  let sections :=
    match findGroup "podcast" results with
    | Some podcastData =>
        if Nat.ltb 0 (length (Group.data podcastData)) then
          let podcasts := Group.data podcastData in
          push sections
            ((nl ++ "PODCASTS (" ++ decimal (length podcasts) ++ ")")
             :: mapFromOne formatPodcast podcasts)
        else sections
    | None => sections
    end in
  push sections
    [ nl ++ "Tap on any " ++ quoted "Listen" ++ " link to play on radiofm.co" ].

Definition handler (body : JsVal) : Prog JsVal :=
  mcpPost searchSections body.

End Build.
End Compiled.

(** ** A concrete host: V8 in the en-US locale

    Used to run the model on examples.  [parseInt] skips leading ASCII white
    space, reads a sign, a [0x] prefix and the longest run of digits; the
    count is exact below 2^53. *)

Module EnUS.

Inductive Parsed : Type :=
| NaN
| Int (negative : bool) (magnitude : N).

Definition isWhite (c : ascii) : bool :=
  match nat_of_ascii c with
  | 9 | 10 | 11 | 12 | 13 | 32 => true
  | _ => false
  end.

Fixpoint skipWhite (s : string) : string :=
  match s with
  | String c rest => if isWhite c then skipWhite rest else s
  | EmptyString => s
  end.

Definition digitValue (radix : N) (c : ascii) : option N :=
  let n := N_of_ascii c in
  let v :=
    if ((48 <=? n) && (n <=? 57))%N then Some (n - 48)%N
    else if ((97 <=? n) && (n <=? 102))%N then Some (n - 87)%N
    else if ((65 <=? n) && (n <=? 70))%N then Some (n - 55)%N
    else None in
  match v with
  | Some d => if (d <? radix)%N then Some d else None
  | None => None
  end.

(** The longest run of digits, as a number; [acc] is [None] until the
    first digit. *)
Fixpoint digits (radix : N) (s : string) (acc : option N) : option N :=
  match s with
  | String c rest =>
      match digitValue radix c with
      | Some d =>
          digits radix rest
            (Some (match acc with Some a => a * radix + d | None => d end)%N)
      | None => acc
      end
  | EmptyString => acc
  end.

Definition parseInt (s : string) : Parsed :=
  let s := skipWhite s in
  let (negative, s) :=
    match s with
    | String "-" rest => (true, rest)
    | String "+" rest => (false, rest)
    | _ => (false, s)
    end in
  let (radix, s) :=
    match s with
    | String "0" (String "x" rest) => (16%N, rest)
    | String "0" (String "X" rest) => (16%N, rest)
    | _ => (10%N, s)
    end in
  match digits radix s None with
  | Some n => Int negative n
  | None => NaN
  end.

(** Commas between groups of three; the digits come least significant
    first. *)
Fixpoint grouped (digits : list ascii) (count : nat) : list ascii :=
  match digits with
  | [] => []
  | d :: rest =>
      if Nat.eqb count 3
      then ","%char :: d :: grouped rest 1
      else d :: grouped rest (S count)
  end.

Definition toLocaleString (x : Parsed) : string :=
  match x with
  | NaN => "NaN"
  | Int negative n =>
      let plain := list_ascii_of_string (decimal (N.to_nat n)) in
      (if negative then "-" else EmptyString)
      ++ string_of_list_ascii (rev (grouped (rev plain) 0))
  end.

Definition valueText (v : JsVal) : string :=
  match v with
  | JNull => "null"
  | _ => "undefined"
  end.

Definition v8Message (fault : Fault) : string :=
  match fault with
  | CannotDestructure property source value =>
      "Cannot destructure property '" ++ property ++ "' of '" ++ source
      ++ "' as it is " ++ valueText value ++ "."
  | CannotRead key value =>
      "Cannot read properties of " ++ valueText value
      ++ " (reading '" ++ key ++ "')"
  | CannotConvertToPrimitive => "Cannot convert object to primitive value"
  end.

Definition host : Host := {|
  localeCount := fun s => toLocaleString (parseInt s);
  typeErrorMessage := v8Message
|}.

End EnUS.

(** ** Vocabulary of the properties *)

(** [line] begins with [start]. *)
Fixpoint startsWith (start line : string) : bool :=
  match start with
  | EmptyString => true
  | String a start' =>
      match line with
      | String b line' => Ascii.eqb a b && startsWith start' line'
      | EmptyString => false
      end
  end.

(** A line of the form [Frequency: ...]. *)
Definition isFrequencyLine (line : string) : bool :=
  startsWith "Frequency: " line.

(** A line of the form [Description: ...]. *)
Definition isDescriptionLine (line : string) : bool :=
  startsWith "Description: " line.

(** No byte of [s] is a line feed. *)
Fixpoint singleLine (s : string) : bool :=
  match s with
  | EmptyString => true
  | String c rest => negb (Ascii.eqb c "010") && singleLine rest
  end.

(** Every member of the record is free of line feeds. *)
Definition singleLineMembers (record : Obj) : Prop :=
  forall key value, In (key, value) record -> singleLine value = true.

(** [text.split('\n')]: the lines of a text. *)
Fixpoint splitLines (text : string) : list string :=
  match text with
  | EmptyString => [ EmptyString ]
  | String c rest =>
      if Ascii.eqb c "010" then EmptyString :: splitLines rest
      else
        match splitLines rest with
        | line :: lines => String c line :: lines
        | [] => [ String c EmptyString ]
        end
  end.

(** Every number that printing [v] reaches is a safe integer, below 2^53 in
    magnitude, for which [decimalZ] is what JavaScript prints.  An object
    prints without its members. *)
Fixpoint safeNumbers (v : JsVal) : bool :=
  match v with
  | JNum n => (Z.abs n <=? 9007199254740991)%Z
  | JArr items =>
      (fix all (l : list JsVal) : bool :=
         match l with
         | [] => true
         | x :: rest => safeNumbers x && all rest
         end) items
  | _ => true
  end.

(** The envelope is a [tools/call] of [search_radio_stations] whose
    [params.arguments?.query] is [query]. *)
Definition isSearchCall (body query : JsVal) : Prop :=
  field body "method" = JStr "tools/call"
  /\ field (field body "params") "name" = JStr "search_radio_stations"
  /\ optField (field (field body "params") "arguments") "query" = query.

(** Rendering in input order, numbered upwards from [first]. *)
Fixpoint numbered {A : Type} (render : A -> nat -> string) (first : nat)
  (items : list A) : list string :=
  match items with
  | [] => []
  | item :: rest => render item first :: numbered render (S first) rest
  end.

(** A block of the text: nothing for a missing group or one without
    entries, otherwise the heading [title (N)] after a blank line and the N
    entries numbered from 1. *)
Definition block (title : string) (render : Obj -> nat -> string)
  (group : option Group.t) : list string :=
  match group with
  | Some g =>
      match Group.data g with
      | [] => []
      | items =>
          (nl ++ title ++ " (" ++ decimal (length items) ++ ")")
          :: numbered render 1 items
      end
  | None => []
  end.

(** The header line of the text. *)
Definition headerLine (query : string) : string :=
  "Search Results for " ++ dq ++ query ++ dq.

(** The closing line of the text, after a blank line. *)
Definition closingLine : string :=
  nl ++ "Tap on any " ++ dq ++ "Listen" ++ dq ++ " link to play on radiofm.co".

(** [hay.includes(needle)] *)
Definition includes (needle hay : string) : bool :=
  match String.index 0 needle hay with
  | Some _ => true
  | None => false
  end.

(** ** Sample inputs *)

Module Sample.

(** [{ jsonrpc, id, method: 'tools/call', params: { name, arguments: { query } } }] *)
Definition searchFor (id query : JsVal) : JsVal :=
  JObj [ ("jsonrpc", JStr "2.0"); ("id", id); ("method", JStr "tools/call");
         ("params", JObj [ ("name", JStr "search_radio_stations");
                           ("arguments", JObj [ ("query", query) ]) ]) ].

(** An upstream that answers every request with the same body. *)
Definition answering (apiData : ApiResponse.t) : Upstream :=
  fun _ => Axios.Fulfilled apiData.

Definition reply (code : Z) (message : string)
  (groups : option (list Group.t)) : ApiResponse.t :=
  {| ApiResponse.http_response_code := 200;
     ApiResponse.http_response_message := "OK";
     ApiResponse.data :=
       {| ApiResponse.ErrorCode := code;
          ApiResponse.ErrorMessage := message;
          ApiResponse.Data := groups |} |}.

Definition bbc : RadioStation :=
  {| st_id := "101"; st_name := "BBC World Service"; st_logo := "bbc.png";
     st_weburl := "https://www.bbc.co.uk"; st_shorturl := "bbc-world";
     st_genre := "News"; st_lang := "en"; language := "English";
     st_bc_freq := "~"; st_city := "London"; st_state := "England";
     country_name_rs := "United Kingdom"; st_country := "GB";
     st_play_cnt := "1234567"; st_fav_cnt := "42";
     stream_link := "https://stream.example/bbc"; stream_type := "MP3";
     stream_bitrate := "128"; deeplink := "https://radiofm.co/s/101" |}.

Definition jazz : RadioStation :=
  {| st_id := "202"; st_name := "Jazz FM"; st_logo := "jazz.png";
     st_weburl := "~"; st_shorturl := "jazz-fm";
     st_genre := "Jazz"; st_lang := "en"; language := "English";
     st_bc_freq := "102.2"; st_city := "London"; st_state := "England";
     country_name_rs := "United Kingdom"; st_country := "GB";
     st_play_cnt := "980"; st_fav_cnt := "7";
     stream_link := "https://stream.example/jazz"; stream_type := "AAC";
     stream_bitrate := "64"; deeplink := "https://radiofm.co/s/202" |}.

Fixpoint filler (n : nat) : string :=
  match n with
  | 0 => EmptyString
  | S m => String "a" (filler m)
  end.

Definition daily (desc : string) : Podcast :=
  {| p_id := "9"; p_name := "The Daily"; p_desc := desc; p_lang := "English";
     p_image := "daily.png"; p_email := "daily@example.org";
     cat_name := "News"; total_stream := "5000";
     p_deeplink := "https://radiofm.co/p/9"; cc_code := "US" |}.

(** A podcast object whose [p_desc] is missing. *)
Definition undescribed : Obj :=
  [ ("p_name", "Untitled"); ("cat_name", "Talk"); ("p_lang", "English");
    ("total_stream", "12"); ("deeplink", "https://radiofm.co/p/1") ].

Definition radioGroup : Group.t :=
  Group.make "radio" [ RadioStation_obj bbc; RadioStation_obj jazz ].

Definition podcastGroup : Group.t :=
  Group.make "podcast" [ Podcast_obj (daily "News of the day") ].

Definition emptyRadioGroup : Group.t := Group.make "radio" [].

(** A station without a frequency whose genre runs over two lines. *)
Definition twoLineGenre : Obj :=
  [ ("st_name", "Hit Radio"); ("st_bc_freq", "~");
    ("st_genre", "Pop" ++ nl ++ "Frequency: 99.9") ].



End Sample.

(** ** More vocabulary *)

(** The elements of an array value. *)
Definition elements (v : JsVal) : list JsVal :=
  match v with
  | JArr items => items
  | _ => []
  end.

(** The tool names a [tools/list] result advertises. *)
Definition advertisedNames (result : JsVal) : list JsVal :=
  map (fun tool => field tool "name") (elements (field result "tools")).

(** [record.key] is truthy: present and not empty. *)
Definition present (member : option string) : bool :=
  match member with
  | Some t => negb (String.eqb t EmptyString)
  | None => false
  end.

(** [text += piece], piece after piece. *)
Definition appendAll (text : string) (pieces : list string) : string :=
  fold_left (fun acc piece => acc ++ piece) pieces text.

(** ** The first build: [list_tools] and [call_tool]

    The variant that speaks [list_tools] and [call_tool] instead of the MCP
    method names.  Its formatters build one string by appending pieces, each
    ending in a newline; its query check, upstream request, error-code test,
    guidance message and [catch] are those of [src/index.ts]. *)

Module Legacy.
Section Build.
Context {host : Host}.

Definition doubleRule : string :=
  "════════════════════════════════════".

Definition singleRule : string :=
  "────────────────────────────────────".

(** The pieces appended to [result] in [formatRadioStation], in order. *)
Definition stationPieces (station : Obj) (index : nat) : list string :=
  let result :=
    [ nl ++ "🎵 **" ++ decimal index ++ ". " ++ show station "st_name"
        ++ "**" ++ nl ] in
  let result :=
    push result
      [ "   📍 Location: " ++ show station "st_city" ++ ", "
          ++ show station "st_state" ++ ", "
          ++ show station "country_name_rs" ++ nl;
        "   🌐 Language: " ++ show station "language" ++ nl;
        "   🎼 Genre: " ++ show station "st_genre" ++ nl ] in
  let result :=
    if differs (own station "st_bc_freq") "~"
    then push result
           [ "   📻 Frequency: " ++ show station "st_bc_freq" ++ nl ]
    else result in
  let result :=
    push result
      [ "   🎧 Stream: " ++ show station "stream_type" ++ " @ "
          ++ show station "stream_bitrate" ++ "kbps" ++ nl;
        "   ⭐ Plays: " ++ localeCount (show station "st_play_cnt")
          ++ " | Favorites: " ++ localeCount (show station "st_fav_cnt") ++ nl;
        "   🔗 Play on Radio FM: " ++ show station "deeplink" ++ nl ] in
  if present (own station "st_weburl") && differs (own station "st_weburl") "~"
  then push result [ "   🌍 Website: " ++ show station "st_weburl" ++ nl ]
  else result.

Definition formatRadioStation (station : Obj) (index : nat) : string :=
  appendAll EmptyString (stationPieces station index).

(** [shortDesc], cut at 150 characters here. *)
Definition shortDesc (d : string) : string :=
  if Nat.ltb 150 (jsLength d)
  then jsSubstring0 150 d ++ "..."
  else d.

(** The pieces appended to [result] in [formatPodcast], in order. *)
Definition podcastPieces (podcast : Obj) (index : nat) : list string :=
  let result :=
    [ nl ++ "🎙️ **" ++ decimal index ++ ". " ++ show podcast "p_name"
        ++ "**" ++ nl;
      "   📂 Category: " ++ show podcast "cat_name" ++ nl;
      "   🌐 Language: " ++ show podcast "p_lang" ++ nl ] in
  let result :=
    match description podcast with
    | Some d => push result [ "   📝 Description: " ++ shortDesc d ++ nl ]
    | None => result
    end in
  push result
    [ "   🎧 Total Streams: " ++ localeCount (show podcast "total_stream") ++ nl;
      "   🔗 Listen on Radio FM: " ++ show podcast "deeplink" ++ nl ].

Definition formatPodcast (podcast : Obj) (index : nat) : string :=
  appendAll EmptyString (podcastPieces podcast index).

(** [resultText] of the [call_tool] branch. *)
Definition searchText (query : string) (results : list Group.t) : string :=
  let resultText := "🎵 **Search Results for " ++ quoted query ++ "**" ++ nl in
  let resultText := resultText ++ doubleRule ++ nl in
  let resultText :=
    match findGroup "radio" results with
    | Some radioData =>
        if Nat.ltb 0 (length (Group.data radioData)) then
          let stations := Group.data radioData in
          let resultText :=
            resultText ++ nl ++ "📻 **RADIO STATIONS ("
            ++ decimal (length stations) ++ ")**" ++ nl in
          let resultText := resultText ++ singleRule ++ nl in
          appendAll resultText (mapFromOne formatRadioStation stations)
        else resultText
    | None => resultText
    end in
  let resultText :=
    match findGroup "podcast" results with
    | Some podcastData =>
        if Nat.ltb 0 (length (Group.data podcastData)) then
          let podcasts := Group.data podcastData in
          let resultText :=
            resultText ++ nl ++ nl ++ "🎙️ **PODCASTS ("
            ++ decimal (length podcasts) ++ ")**" ++ nl in
          let resultText := resultText ++ singleRule ++ nl in
          appendAll resultText (mapFromOne formatPodcast podcasts)
        else resultText
    | None => resultText
    end in
  let resultText := resultText ++ nl ++ doubleRule ++ nl in
  resultText ++ "💡 Click any deeplink above to play on radiofm.co" ++ nl.

(** The [response] object of the [list_tools] branch. *)
Definition listToolsResult : JsVal :=
  JObj [
    ("tools", JArr [
       JObj [
         ("name", JStr "search_radio_stations");
         ("description", JStr "Search for radio stations and podcasts by name, country, language, or genre");
         ("parameters", JObj [
            ("type", JStr "object");
            ("properties", JObj [
               ("query", JObj [
                  ("type", JStr "string");
                  ("description", JStr "Search query (e.g., 'BBC', 'India', 'Hindi', 'Jazz')") ]) ]);
            ("required", JArr [ JStr "query" ]);
            ("additionalProperties", JBool false) ]);
         ("returns", JObj [
            ("type", JStr "object");
            ("properties", JObj [
               ("content", JObj [
                  ("type", JStr "array");
                  ("items", JObj [
                     ("type", JStr "object");
                     ("properties", JObj [
                        ("type", JObj [ ("type", JStr "string") ]);
                        ("text", JObj [ ("type", JStr "string") ]) ]);
                     ("required", JArr [ JStr "type"; JStr "text" ]) ]) ]) ]);
            ("required", JArr [ JStr "content" ]) ]) ] ]);
    ("schema_version", JStr "1.0") ].

(** The rest of the [call_tool] branch once [axios.get] has resolved. *)
Definition afterAwait (id query : JsVal) (apiData : ApiResponse.t)
  : Prog JsVal :=
  if negb (ApiResponse.ErrorCode (ApiResponse.data apiData) =? 0)%Z then
    Throw (Error (ApiResponse.ErrorMessage (ApiResponse.data apiData)))
  else
    match ApiResponse.Data (ApiResponse.data apiData) with
    | None | Some [] =>
        q <- str query ;;
        Ret (resultEnvelope id (textContent (noResults q)))
    | Some results =>
        q <- str query ;;
        Ret (resultEnvelope id (textContent (searchText q results)))
    end.

(** The body of [try]. *)
Definition tryBlock (body : JsVal) : Prog JsVal :=
  _ <- destructure "method" "req.body" body ;;
  let method := field body "method" in
  let params := field body "params" in
  let id := field body "id" in
  if isStr method "list_tools" then
    Ret (resultEnvelope id listToolsResult)
  else if isStr method "call_tool" then
    _ <- destructure "name" "params" params ;;
    let name := field params "name" in
    let args := field params "arguments" in
    if isStr name "search_radio_stations" then
      let query := optField args "query" in
      if negb (truthy query) then
        Throw (Error "Search query is required")
      else
        apiData <- axiosGet (searchRequest query) ;;
        afterAwait id query apiData
    else
      n <- str name ;;
      Throw (Error ("Unknown tool: " ++ n))
  else
    m <- str method ;;
    Throw (Error ("Unknown method: " ++ m)).

(** [app.post('/mcp', ...)] of this build; its [catch] is the one of
    [src/index.ts] without the log line. *)
Definition handler (body : JsVal) : Prog JsVal :=
  tryCatch (tryBlock body) (catchBlock body).

End Build.
End Legacy.

(** ** The build of version 1.0.1

    The last variant: the listen link is the play URL followed by
    [st_shorturl], the podcast block is in place, and the [catch] reads the
    request [id] through [req.body?.id || null].  The two response headers
    it sets before [try] are not part of the answer's body.  Its
    [formatPodcast] is the one of [src/index.ts]. *)

Module Latest.
Section Build.
Context {host : Host}.

Definition stationLines (station : Obj) (index : nat) : list string :=
  let lines :=
    [ decimal index ++ ". " ++ show station "st_name";
      "Location: " ++ show station "st_city" ++ ", "
        ++ show station "st_state" ++ ", " ++ show station "country_name_rs";
      "Language: " ++ show station "language";
      "Genre: " ++ show station "st_genre" ] in
  let lines :=
    if differs (own station "st_bc_freq") "~"
    then push lines [ "Frequency: " ++ show station "st_bc_freq" ]
    else lines in
  push lines
    [ "Stream: " ++ show station "stream_type" ++ " "
        ++ show station "stream_bitrate" ++ "kbps";
      "Plays: " ++ localeCount (show station "st_play_cnt");
      "Listen: https://appradiofm.com/radioplay/"
        ++ show station "st_shorturl" ].

Definition formatRadioStation (station : Obj) (index : nat) : string :=
  join nl (stationLines station index).

Definition initializeResult : JsVal :=
  JObj [ ("protocolVersion", JStr "2025-11-04");
         ("capabilities", JObj [ ("tools", JObj []) ]);
         ("serverInfo", JObj [ ("name", JStr "radiofm-mcp-server");
                               ("version", JStr "1.0.1") ]) ].

Definition toolsListResult : JsVal :=
  JObj [ ("tools", JArr [
    JObj [ ("name", JStr "search_radio_stations");
           ("description", JStr "Search and explore live radio stations and podcasts from around the world using the Radio FM app within ChatGPT. Discover trending music, news, and cultural broadcasts across languages, genres, and countries â€” all seamlessly accessible without sign-in.");
           ("inputSchema", JObj [
              ("type", JStr "object");
              ("properties", JObj [
                 ("query", JObj [
                    ("type", JStr "string");
                    ("description", JStr "Search query (e.g., 'BBC', 'India', 'Hindi', 'Jazz')") ]) ]);
              ("required", JArr [ JStr "query" ]) ]) ] ]) ].

(** The text returned when the result list is empty or absent. *)
Definition noResults (query : string) : string :=
  "ðŸ” No results found for " ++ quoted query
  ++ ". Try station name, country, language, or genre.".

Definition searchSections (query : string) (results : list Group.t)
  : list string :=
  let sections := [ "Search Results for " ++ quoted query ] in
  let sections :=
    match findGroup "radio" results with
    | Some radioData =>
        if Nat.ltb 0 (length (Group.data radioData)) then
          let stations := Group.data radioData in
          push sections
            ((nl ++ "RADIO STATIONS (" ++ decimal (length stations) ++ ")")
             :: mapFromOne formatRadioStation stations)
        else sections
    | None => sections
    end in
  let sections :=
    match findGroup "podcast" results with
    | Some podcastData =>
        if Nat.ltb 0 (length (Group.data podcastData)) then
          let podcasts := Group.data podcastData in
          push sections
            ((nl ++ "PODCASTS (" ++ decimal (length podcasts) ++ ")")
             :: mapFromOne formatPodcast podcasts)
        else sections
    | None => sections
    end in
  push sections [ nl ++ "Tap on any 'Listen' link to play on RadioFM." ].

(** The rest of the [tools/call] branch once [axios.get] has resolved;
    [!results?.length] holds for a missing and for an empty list. *)
Definition afterAwait (id query : JsVal) (apiData : ApiResponse.t)
  : Prog JsVal :=
  if negb (ApiResponse.ErrorCode (ApiResponse.data apiData) =? 0)%Z then
    Throw (Error (ApiResponse.ErrorMessage (ApiResponse.data apiData)))
  else
    match ApiResponse.Data (ApiResponse.data apiData) with
    | None | Some [] =>
        q <- str query ;;
        Ret (resultEnvelope id (textContent (noResults q)))
    | Some results =>
        q <- str query ;;
        Ret (resultEnvelope id
               (textContent (join nl (searchSections q results))))
    end.

(** The body of [try]. *)
Definition tryBlock (body : JsVal) : Prog JsVal :=
  _ <- destructure "method" "req.body" body ;;
  let method := field body "method" in
  let params := field body "params" in
  let id := field body "id" in
  if isStr method "initialize" then
    Ret (resultEnvelope id initializeResult)
  else if isStr method "tools/list" then
    Ret (resultEnvelope id toolsListResult)
  else if isStr method "tools/call" then
    _ <- destructure "name" "params" params ;;
    let name := field params "name" in
    let args := field params "arguments" in
    if negb (isStr name "search_radio_stations") then
      n <- str name ;;
      Throw (Error ("Unknown tool: " ++ n))
    else
      let query := optField args "query" in
      if negb (truthy query) then
        Throw (Error "Search query is required")
      else
        apiData <- axiosGet (searchRequest query) ;;
        afterAwait id query apiData
  else
    m <- str method ;;
    Throw (Error ("Unknown method: " ++ m)).

(** [req.body?.id || null] *)
Definition idOrNull (body : JsVal) : JsVal :=
  let id := optField body "id" in
  if truthy id then id else JNull.

(** The body of [catch]; [console.error] only logs. *)
Definition catchBlock (body : JsVal) (err : Exn) : Prog JsVal :=
  Ret (errorEnvelope (idOrNull body) (-32000)
         (orElse (message err) "Internal server error")).

Definition handler (body : JsVal) : Prog JsVal :=
  tryCatch (tryBlock body) (catchBlock body).

End Build.
End Latest.

(** Rewriting with what is known of the envelope, then letting the
    dispatch compute. *)
Ltac dispatch :=
  unfold tryBlock, destructure;
  repeat match goal with
         | H : nullish _ = _ |- _ => rewrite H
         | H : field _ _ = JStr _ |- _ => rewrite H
         | H : isStr _ _ = _ |- _ => rewrite H
         end;
  cbn [bind isStr String.eqb Ascii.eqb Bool.eqb andb].

(** ** Helper lemmas *)

Lemma to_uint_nonnil (n : nat) : Nat.to_uint n <> Decimal.Nil.
Proof.
  rewrite <- (DecimalNat.Unsigned.of_to n) at 1.
  rewrite DecimalNat.Unsigned.to_of.
  apply DecimalFacts.unorm_nonnil.
Qed.

(** A running index prints with a digit in front, so the first line of a
    record is neither a frequency nor a description line. *)
Lemma decimal_not_frequency (n : nat) (tail : string) :
  isFrequencyLine (decimal n ++ tail) = false.
Proof.
  unfold isFrequencyLine, decimal.
  destruct (Nat.to_uint n) eqn:E; [ now apply to_uint_nonnil in E | .. ];
    reflexivity.
Qed.

Lemma decimal_not_description (n : nat) (tail : string) :
  isDescriptionLine (decimal n ++ tail) = false.
Proof.
  unfold isDescriptionLine, decimal.
  destruct (Nat.to_uint n) eqn:E; [ now apply to_uint_nonnil in E | .. ];
    reflexivity.
Qed.

Lemma append_assoc (a b c : string) : (a ++ b) ++ c = a ++ b ++ c.
Proof. induction a as [|x a IH]; simpl; [ reflexivity | now rewrite IH ]. Qed.

Lemma differs_iff (member : option string) (s : string) :
  differs member s = true <-> member <> Some s.
Proof.
  destruct member as [t|]; simpl.
  - rewrite negb_true_iff, String.eqb_neq. split; congruence.
  - split; [ discriminate | reflexivity ].
Qed.

(** *** Code units *)

Lemma codeUnits_le_2 (b : ascii) : codeUnits b <= 2.
Proof.
  unfold codeUnits.
  destruct (Nat.ltb (nat_of_ascii b) 128); [ lia | ].
  destruct (Nat.ltb (nat_of_ascii b) 192); [ lia | ].
  destruct (Nat.ltb (nat_of_ascii b) 240); lia.
Qed.

Lemma codeUnits_continuation (n : nat) :
  128 <= n < 192 -> codeUnits (ascii_of_nat n) = 0.
Proof.
  intros H. unfold codeUnits. rewrite nat_ascii_embedding by lia.
  destruct (Nat.ltb_spec n 128); [ lia | ].
  destruct (Nat.ltb_spec n 192); [ reflexivity | lia ].
Qed.

Lemma jsLength_append (a b : string) :
  jsLength (a ++ b) = jsLength a + jsLength b.
Proof.
  induction a as [|c a IH]; simpl; [ reflexivity | rewrite IH; lia ].
Qed.

(** The three bytes of a high surrogate are one code unit. *)
Lemma jsLength_highSurrogate (lead : ascii) (tail : string) :
  jsLength (highSurrogate lead tail) = 1.
Proof.
  unfold highSurrogate, surrogateBytes. cbv zeta.
  match goal with
  | |- context [ 160 + ?w mod 16 ] =>
      assert (w mod 16 < 16) by (apply Nat.mod_upper_bound; discriminate);
      generalize dependent (w mod 16); intros a A
  end.
  match goal with
  | |- context [ 128 + ?zy mod 64 ] =>
      assert (zy mod 64 < 64) by (apply Nat.mod_upper_bound; discriminate);
      generalize dependent (zy mod 64); intros b B
  end.
  cbn [jsLength]. change (codeUnits (ascii_of_nat 237)) with 1.
  rewrite (codeUnits_continuation (160 + a)) by lia.
  rewrite (codeUnits_continuation (128 + b)) by lia. reflexivity.
Qed.

(** [substring(0, n)] of a string of at least [n] code units has [n]. *)
Lemma jsLength_substring0 (n : nat) (s : string) :
  n <= jsLength s -> jsLength (jsSubstring0 n s) = n.
Proof.
  revert n. induction s as [|b rest IH]; intros n H; simpl in *.
  - lia.
  - pose proof (codeUnits_le_2 b) as U.
    destruct (codeUnits b) as [|[|k]] eqn:E.
    + simpl. rewrite E. apply IH. lia.
    + destruct n as [|m]; [ reflexivity | ].
      simpl. rewrite E, IH by lia. reflexivity.
    + assert (k = 0) by lia. subst k.
      destruct n as [|[|m]].
      * reflexivity.
      * apply jsLength_highSurrogate.
      * simpl. rewrite E, IH by lia. reflexivity.
Qed.


Lemma jsLength_shortDesc (d : string) :
  jsLength (shortDesc d)
  = if Nat.ltb 100 (jsLength d) then 103 else jsLength d.
Proof.
  unfold shortDesc.
  destruct (Nat.ltb 100 (jsLength d)) eqn:E; [ | reflexivity ].
  apply Nat.ltb_lt in E.
  rewrite jsLength_append, jsLength_substring0 by lia. reflexivity.
Qed.

(** *** Lines *)

Lemma singleLine_append (a b : string) :
  singleLine (a ++ b) = singleLine a && singleLine b.
Proof.
  induction a as [|c a IH]; simpl; [ reflexivity | ].
  rewrite IH. now rewrite andb_assoc.
Qed.





Lemma singleLine_decimal (n : nat) : singleLine (decimal n) = true.
Proof.
  unfold decimal. induction (Nat.to_uint n); simpl; auto.
Qed.

Lemma own_In {V : Type} (props : list (string * V)) (key : string) (v : V) :
  own props key = Some v -> In (key, v) props.
Proof.
  induction props as [|[k w] props IH]; simpl; [ discriminate | ].
  destruct (own props key) as [x|].
  - intros E. injection E as ->. right. now apply IH.
  - destruct (String.eqb k key) eqn:K; [ | discriminate ].
    intros E. injection E as ->. apply String.eqb_eq in K. subst k. now left.
Qed.

Lemma singleLine_show (record : Obj) (key : string) :
  singleLineMembers record -> singleLine (show record key) = true.
Proof.
  intros M. unfold show. destruct (own record key) as [v|] eqn:E.
  - apply (M key v). now apply own_In.
  - reflexivity.
Qed.

Lemma splitLines_single (line : string) :
  singleLine line = true -> splitLines line = [ line ].
Proof.
  induction line as [|c line IH]; simpl; [ reflexivity | ].
  intros H. apply andb_true_iff in H as [C L].
  apply negb_true_iff in C. rewrite C, (IH L). reflexivity.
Qed.

Lemma splitLines_cons (line text : string) :
  singleLine line = true ->
  splitLines (line ++ nl ++ text) = line :: splitLines text.
Proof.
  induction line as [|c line IH]; intros H; [ reflexivity | ].
  cbn [singleLine] in H. apply andb_true_iff in H as [C L].
  apply negb_true_iff in C.
  cbn [append splitLines]. rewrite C, (IH L). reflexivity.
Qed.

(** Splitting undoes joining when no line holds a line feed. *)
Lemma splitLines_join (lines : list string) :
  lines <> [] ->
  Forall (fun line => singleLine line = true) lines ->
  splitLines (join nl lines) = lines.
Proof.
  unfold join. intros N F.
  induction F as [|line lines L F IH]; [ congruence | ].
  destruct lines as [|next lines].
  - simpl. now apply splitLines_single.
  - change (String.concat nl (line :: next :: lines))
      with (line ++ nl ++ String.concat nl (next :: lines)).
    rewrite (splitLines_cons _ _ L), IH by discriminate. reflexivity.
Qed.

Lemma description_some (podcast : Obj) (d : string) :
  own podcast "p_desc" = Some d -> d <> EmptyString ->
  description podcast = Some d.
Proof.
  intros E N. unfold description. rewrite E.
  apply String.eqb_neq in N. now rewrite N.
Qed.

Lemma podcastLines_described
  {host : Host} (podcast : Obj) (index : nat) (d : string) :
  description podcast = Some d ->
  filter isDescriptionLine (podcastLines podcast index)
  = [ "Description: " ++ shortDesc d ].
Proof.
  intros E. unfold podcastLines, push. rewrite E.
  cbn [app filter]. rewrite decimal_not_description. reflexivity.
Qed.

Lemma field_str_nullish (v : JsVal) (key s : string) :
  field v key = JStr s -> nullish v = false.
Proof. destruct v; simpl; intros H; try reflexivity; discriminate. Qed.

Lemma isStr_true (v : JsVal) (s : string) : isStr v s = true -> v = JStr s.
Proof.
  destruct v; simpl; try discriminate.
  intros E. apply String.eqb_eq in E. now subst.
Qed.

(** ** Running the handler *)

Lemma run_bind {A B : Type} (upstream : Upstream) (p : Prog A) (f : A -> Prog B) :
  run upstream (bind p f)
  = match run upstream p with
    | (calls, inl e) => (calls, inl e)
    | (calls, inr a) =>
        let (more, result) := run upstream (f a) in ((calls ++ more)%list, result)
    end.
Proof.
  induction p as [a|e|call k IH]; simpl.
  - now destruct (run upstream (f a)).
  - reflexivity.
  - rewrite IH. destruct (run upstream (k (upstream call))) as [calls [e|a]].
    + reflexivity.
    + now destruct (run upstream (f a)).
Qed.

Lemma run_tryCatch {A : Type} (upstream : Upstream) (p : Prog A) (h : Exn -> Prog A) :
  run upstream (tryCatch p h)
  = match run upstream p with
    | (calls, inr a) => (calls, inr a)
    | (calls, inl e) =>
        let (more, result) := run upstream (h e) in ((calls ++ more)%list, result)
    end.
Proof.
  induction p as [a|e|call k IH]; simpl.
  - reflexivity.
  - now destruct (run upstream (h e)).
  - rewrite IH. destruct (run upstream (k (upstream call))) as [calls [e|a]].
    + now destruct (run upstream (h e)).
    + reflexivity.
Qed.

Section HandlerFacts.
Context {host : Host}.
Variable sections : string -> list Group.t -> list string.
Variable upstream : Upstream.

Lemma run_str (v : JsVal) :
  run upstream (str v)
  = ([], match toString v with
         | Some s => inr s
         | None => inl (TypeError CannotConvertToPrimitive)
         end).
Proof. unfold str. now destruct (toString v). Qed.

Lemma run_catchBlock (body : JsVal) (error : Exn) :
  nullish body = false ->
  run upstream (catchBlock body error)
  = ([], inr (errorEnvelope (field body "id") (-32000)
               (orElse (message error) "Internal server error"))).
Proof. intros N. unfold catchBlock, get. now rewrite N. Qed.

(** The handler answers what the [try] block returns, or the error
    envelope of what it throws. *)
Lemma run_mcpPost (body : JsVal) :
  nullish body = false ->
  run upstream (mcpPost sections body)
  = match run upstream (tryBlock sections body) with
    | (calls, inr response) => (calls, inr response)
    | (calls, inl error) =>
        (calls, inr (errorEnvelope (field body "id") (-32000)
                      (orElse (message error) "Internal server error")))
    end.
Proof.
  intros N. unfold mcpPost. rewrite run_tryCatch.
  destruct (run upstream (tryBlock sections body)) as [calls [e|a]].
  - rewrite (run_catchBlock body e N). now rewrite app_nil_r.
  - reflexivity.
Qed.

(** Nothing after the [await] issues a request. *)
Lemma afterAwait_no_call (id query : JsVal) (apiData : ApiResponse.t) :
  fst (run upstream (afterAwait sections id query apiData)) = [].
Proof.
  unfold afterAwait.
  destruct (negb _); [ reflexivity | ].
  destruct (ApiResponse.Data _) as [[|g results]|];
    rewrite run_bind, run_str; now destruct (toString query).
Qed.

Lemma tryBlock_search (body query : JsVal) :
  isSearchCall body query -> truthy query = true ->
  run upstream (tryBlock sections body)
  = match upstream (searchRequest query) with
    | Axios.Rejected message => ([searchRequest query], inl (Error message))
    | Axios.Fulfilled apiData =>
        ([searchRequest query],
         snd (run upstream (afterAwait sections (field body "id") query apiData)))
    end.
Proof.
  intros (M & N & Q) T.
  pose proof (field_str_nullish _ _ _ M) as B.
  pose proof (field_str_nullish _ _ _ N) as P.
  dispatch. rewrite Q, T. cbn [negb axiosGet bind run].
  destruct (upstream (searchRequest query)) as [apiData|message];
    [ | reflexivity ].
  cbn [bind].
  pose proof (afterAwait_no_call (field body "id") query apiData) as C.
  destruct (run upstream (afterAwait sections (field body "id") query apiData))
    as [calls r].
  simpl in C. now subst calls.
Qed.

(** The requests of one run: the search request when the envelope is a
    [tools/call] of [search_radio_stations] with a truthy query, none
    otherwise. *)
Lemma mcpPost_calls (body : JsVal) :
  fst (run upstream (mcpPost sections body))
  = let query := optField (field (field body "params") "arguments") "query" in
    if isStr (field body "method") "tools/call"
       && isStr (field (field body "params") "name") "search_radio_stations"
       && truthy query
    then [searchRequest query] else [].
Proof.
  destruct (nullish body) eqn:B.
  { destruct body; try discriminate; reflexivity. }
  rewrite (run_mcpPost body B).
  replace (fst _) with (fst (run upstream (tryBlock sections body)))
    by (now destruct (run upstream (tryBlock sections body)) as [calls [e|a]]).
  cbv zeta.
  destruct (isStr (field body "method") "tools/call") eqn:M.
  - apply isStr_true in M.
    destruct (isStr (field (field body "params") "name") "search_radio_stations")
      eqn:N.
    + apply isStr_true in N.
      destruct (truthy (optField (field (field body "params") "arguments") "query"))
        eqn:T.
      * rewrite (tryBlock_search body _ (conj M (conj N eq_refl)) T).
        now destruct (upstream _).
      * pose proof (field_str_nullish _ _ _ N) as P.
        dispatch. now rewrite T.
    + dispatch.
      destruct (nullish (field body "params")); [ reflexivity | ].
      cbn [bind]. rewrite run_bind, run_str.
      now destruct (toString _).
  - dispatch.
    destruct (isStr (field body "method") "initialize"); [ reflexivity | ].
    destruct (isStr (field body "method") "tools/list"); [ reflexivity | ].
    rewrite run_bind, run_str. now destruct (toString _).
Qed.
End HandlerFacts.

(** ** The text sections *)

Lemma mapFromOne_numbered {A : Type} (render : A -> nat -> string) (items : list A) :
  mapFromOne render items = numbered render 1 items.
Proof.
  unfold mapFromOne.
  enough (forall k, map (fun entry => render (snd entry) (fst entry + 1))
                        (combine (seq k (length items)) items)
                    = numbered render (S k) items) as G by apply G.
  induction items as [|item rest IH]; intros k; simpl.
  - reflexivity.
  - rewrite IH. now rewrite Nat.add_1_r.
Qed.

Lemma pushed_block (sections : list string) (title : string)
  (render : Obj -> nat -> string) (group : option Group.t) :
  match group with
  | Some g =>
      if Nat.ltb 0 (length (Group.data g)) then
        push sections
          ((nl ++ title ++ " (" ++ decimal (length (Group.data g)) ++ ")")
           :: mapFromOne render (Group.data g))
      else sections
  | None => sections
  end = (sections ++ block title render group)%list.
Proof.
  unfold block, push. destruct group as [g|]; [ | now rewrite app_nil_r ].
  destruct (Group.data g) as [|item rest]; simpl Nat.ltb; cbv iota.
  - now rewrite app_nil_r.
  - now rewrite mapFromOne_numbered.
Qed.

Lemma searchSections_blocks {host : Host} (query : string) (results : list Group.t) :
  searchSections query results
  = ([ headerLine query ]
     ++ block "RADIO STATIONS" formatRadioStation (findGroup "radio" results)
     ++ [ closingLine ])%list.
Proof.
  unfold searchSections.
  rewrite (pushed_block _ "RADIO STATIONS" formatRadioStation).
  unfold push. now rewrite <- app_assoc.
Qed.

Lemma Compiled_searchSections_blocks
  {host : Host} (query : string) (results : list Group.t) :
  Compiled.searchSections query results
  = ([ headerLine query ]
     ++ block "RADIO STATIONS" Compiled.formatRadioStation
          (findGroup "radio" results)
     ++ block "PODCASTS" formatPodcast (findGroup "podcast" results)
     ++ [ closingLine ])%list.
Proof.
  unfold Compiled.searchSections.
  rewrite (pushed_block _ "RADIO STATIONS" Compiled.formatRadioStation).
  rewrite (pushed_block _ "PODCASTS" formatPodcast).
  unfold push. now rewrite <- !app_assoc.
Qed.

Lemma block_of_empty (tag title : string) (render : Obj -> nat -> string)
  (results : list Group.t) :
  (forall g, In g results -> Group.type g = tag -> Group.data g = []) ->
  block title render (findGroup tag results) = [].
Proof.
  intros H. unfold block, findGroup.
  destruct (find _ results) as [g|] eqn:F; [ | reflexivity ].
  apply find_some in F as [I T]. apply String.eqb_eq in T.
  now rewrite (H g I T).
Qed.

(** ** A search that reaches the upstream *)

Section SearchRuns.
Context {host : Host}.
Variable sections : string -> list Group.t -> list string.
Variable upstream : Upstream.
Variables (body : JsVal) (q : string) (apiData : ApiResponse.t).
Hypothesis call : isSearchCall body (JStr q).
Hypothesis nonempty : q <> EmptyString.
Hypothesis fulfilled :
  upstream (searchRequest (JStr q)) = Axios.Fulfilled apiData.

Lemma run_search :
  run upstream (mcpPost sections body)
  = match snd (run upstream
                 (afterAwait sections (field body "id") (JStr q) apiData)) with
    | inr response => ([searchRequest (JStr q)], inr response)
    | inl error =>
        ([searchRequest (JStr q)],
         inr (errorEnvelope (field body "id") (-32000)
                (orElse (message error) "Internal server error")))
    end.
Proof.
  destruct call as (M & _).
  rewrite (run_mcpPost _ _ _ (field_str_nullish _ _ _ M)).
  rewrite (tryBlock_search sections upstream body (JStr q) call).
  - rewrite fulfilled. now destruct (snd _).
  - simpl. apply String.eqb_neq in nonempty. now rewrite nonempty.
Qed.

Lemma run_search_error :
  ApiResponse.ErrorCode (ApiResponse.data apiData) <> 0%Z ->
  run upstream (mcpPost sections body)
  = ([searchRequest (JStr q)],
     inr (errorEnvelope (field body "id") (-32000)
            (orElse (ApiResponse.ErrorMessage (ApiResponse.data apiData))
                    "Internal server error"))).
Proof.
  intros E. rewrite run_search. unfold afterAwait.
  apply Z.eqb_neq in E. now rewrite E.
Qed.

Lemma run_search_none :
  ApiResponse.ErrorCode (ApiResponse.data apiData) = 0%Z ->
  ApiResponse.Data (ApiResponse.data apiData) = None
  \/ ApiResponse.Data (ApiResponse.data apiData) = Some [] ->
  run upstream (mcpPost sections body)
  = ([searchRequest (JStr q)],
     inr (resultEnvelope (field body "id") (textContent (noResults q)))).
Proof.
  intros E D. rewrite run_search. unfold afterAwait. rewrite E.
  now destruct D as [-> | ->].
Qed.

Lemma run_search_some (results : list Group.t) :
  ApiResponse.ErrorCode (ApiResponse.data apiData) = 0%Z ->
  ApiResponse.Data (ApiResponse.data apiData) = Some results ->
  results <> [] ->
  run upstream (mcpPost sections body)
  = ([searchRequest (JStr q)],
     inr (resultEnvelope (field body "id")
            (textContent (join nl (sections q results))))).
Proof.
  intros E D N. rewrite run_search. unfold afterAwait. rewrite E, D.
  now destruct results.
Qed.
End SearchRuns.

(** ** The station formatter *)

(** The lines of the array: a [Frequency:] line exactly when
    [st_bc_freq] is not the sentinel, and the other seven in either case. *)
Lemma stationLines_frequency_line
  {host : Host} (station : Obj) (index : nat) :
  (existsb isFrequencyLine (stationLines station index) = true
   <-> own station "st_bc_freq" <> Some "~")
  /\ filter (fun line => negb (isFrequencyLine line)) (stationLines station index)
     = [ decimal index ++ ". " ++ show station "st_name";
         "Location: " ++ show station "st_city" ++ ", "
           ++ show station "st_state" ++ ", " ++ show station "country_name_rs";
         "Language: " ++ show station "language";
         "Genre: " ++ show station "st_genre";
         "Stream: " ++ show station "stream_type" ++ " "
           ++ show station "stream_bitrate" ++ "kbps";
         "Plays: " ++ localeCount (show station "st_play_cnt");
         "Listen:'https://appradiofm.com/radioplay/' "
           ++ show station "st_shorturl" ].
Proof.
  unfold stationLines, push.
  destruct (differs (own station "st_bc_freq") "~") eqn:D.
  - split.
    + split; intros _.
      * now apply differs_iff.
      * cbn [app existsb]. rewrite decimal_not_frequency. reflexivity.
    + cbn [app filter]. rewrite decimal_not_frequency. reflexivity.
  - split.
    + split.
      * cbn [app existsb]. rewrite decimal_not_frequency. discriminate.
      * intros H. apply differs_iff in H. congruence.
    + cbn [app filter]. rewrite decimal_not_frequency. reflexivity.
Qed.

Ltac single_lines M :=
  repeat constructor;
  rewrite ?singleLine_append, ?singleLine_decimal,
    ?(singleLine_show _ _ M), ?andb_true_r;
  try reflexivity; try assumption.

(** With members free of line feeds, each line of the array is one line
    of the output. *)
Lemma formatRadioStation_lines
  {host : Host} (station : Obj) (index : nat) :
  singleLineMembers station ->
  singleLine (localeCount (show station "st_play_cnt")) = true ->
  splitLines (formatRadioStation station index) = stationLines station index.
Proof.
  intros M P. unfold formatRadioStation. apply splitLines_join.
  - unfold stationLines, push. now destruct (differs _ _).
  - unfold stationLines, push. destruct (differs _ _); cbn [app];
      single_lines M.
Qed.

(** C7, as amended. For every station record whose members hold no line
    feed (the count text of the host neither) and every index, the lines of
    the output of [formatRadioStation] hold a [Frequency:] line exactly
    when [st_bc_freq] is not the sentinel ["~"], and the other seven lines
    (index and name, location, language, genre, stream type with bitrate in
    kbps, play count in the locale's format, listen link) are there in both
    cases, in this order and unchanged. *)
Theorem formatRadioStation_frequency_line
  (host : Host) (station : Obj) (index : nat) :
  singleLineMembers station ->
  singleLine (localeCount (show station "st_play_cnt")) = true ->
  let output := splitLines (formatRadioStation station index) in
  (existsb isFrequencyLine output = true
   <-> own station "st_bc_freq" <> Some "~")
  /\ filter (fun line => negb (isFrequencyLine line)) output
     = [ decimal index ++ ". " ++ show station "st_name";
         "Location: " ++ show station "st_city" ++ ", "
           ++ show station "st_state" ++ ", " ++ show station "country_name_rs";
         "Language: " ++ show station "language";
         "Genre: " ++ show station "st_genre";
         "Stream: " ++ show station "stream_type" ++ " "
           ++ show station "stream_bitrate" ++ "kbps";
         "Plays: " ++ localeCount (show station "st_play_cnt");
         "Listen:'https://appradiofm.com/radioplay/' "
           ++ show station "st_shorturl" ].
Proof.
  intros M P. cbv zeta.
  rewrite (formatRadioStation_lines station index M P).
  apply stationLines_frequency_line.
Qed.

Lemma singleLineMembers_jazz : singleLineMembers (RadioStation_obj Sample.jazz).
Proof.
  intros key value H. simpl in H.
  repeat (destruct H as [H | H]; [ now injection H as _ <- | ]).
  contradiction.
Defined.

Lemma formatRadioStation_frequency_line_witness :
  singleLineMembers (RadioStation_obj Sample.jazz)
  /\ singleLine (localeCount (Host := EnUS.host)
                   (show (RadioStation_obj Sample.jazz) "st_play_cnt")) = true
  /\ existsb isFrequencyLine
       (splitLines (formatRadioStation (host := EnUS.host)
                      (RadioStation_obj Sample.jazz) 2)) = true.
Proof.
  split; [ exact singleLineMembers_jazz | ]. split; [ reflexivity | ].
  apply (proj1 (formatRadioStation_frequency_line EnUS.host
                  (RadioStation_obj Sample.jazz) 2
                  singleLineMembers_jazz eq_refl)).
  discriminate.
Defined.

(** C7, as stated, fails on a record with a line feed in a member: the
    station has the sentinel for its frequency, and yet its output shows a
    [Frequency:] line, the second line of its genre. *)
Lemma frequency_line_through_genre_counterexample :
  own Sample.twoLineGenre "st_bc_freq" = Some "~"
  /\ existsb isFrequencyLine
       (splitLines (formatRadioStation (host := EnUS.host)
                      Sample.twoLineGenre 1)) = true
  /\ In "Frequency: 99.9"
       (splitLines (formatRadioStation (host := EnUS.host)
                      Sample.twoLineGenre 1)).
Proof.
  split; [ reflexivity | ]. split; [ reflexivity | ].
  simpl. tauto.
Qed.

Example formatRadioStation_sentinel :
  formatRadioStation (host := EnUS.host) (RadioStation_obj Sample.bbc) 1
  = "1. BBC World Service" ++ nl
    ++ "Location: London, England, United Kingdom" ++ nl
    ++ "Language: English" ++ nl
    ++ "Genre: News" ++ nl
    ++ "Stream: MP3 128kbps" ++ nl
    ++ "Plays: 1,234,567" ++ nl
    ++ "Listen:'https://appradiofm.com/radioplay/' bbc-world".
Proof. reflexivity. Qed.

Example formatRadioStation_frequency :
  formatRadioStation (host := EnUS.host) (RadioStation_obj Sample.jazz) 2
  = "2. Jazz FM" ++ nl
    ++ "Location: London, England, United Kingdom" ++ nl
    ++ "Language: English" ++ nl
    ++ "Genre: Jazz" ++ nl
    ++ "Frequency: 102.2" ++ nl
    ++ "Stream: AAC 64kbps" ++ nl
    ++ "Plays: 980" ++ nl
    ++ "Listen:'https://appradiofm.com/radioplay/' jazz-fm".
Proof. reflexivity. Qed.

(** ** The podcast formatter *)







Example formatPodcast_over_threshold :
  formatPodcast (host := EnUS.host)
    (Podcast_obj (Sample.daily (Sample.filler 101))) 3
  = "3. The Daily" ++ nl
    ++ "Category: News" ++ nl
    ++ "Language: English" ++ nl
    ++ "Description: " ++ Sample.filler 100 ++ "..." ++ nl
    ++ "Streams: 5,000" ++ nl
    ++ "Listen: https://radiofm.co/p/9".
Proof. reflexivity. Qed.

Example formatPodcast_at_threshold :
  formatPodcast (host := EnUS.host)
    (Podcast_obj (Sample.daily (Sample.filler 100))) 3
  = "3. The Daily" ++ nl
    ++ "Category: News" ++ nl
    ++ "Language: English" ++ nl
    ++ "Description: " ++ Sample.filler 100 ++ nl
    ++ "Streams: 5,000" ++ nl
    ++ "Listen: https://radiofm.co/p/9".
Proof. reflexivity. Qed.

Example formatPodcast_undescribed :
  formatPodcast (host := EnUS.host) Sample.undescribed 1
  = "1. Untitled" ++ nl
    ++ "Category: Talk" ++ nl
    ++ "Language: English" ++ nl
    ++ "Streams: 12" ++ nl
    ++ "Listen: https://radiofm.co/p/1".
Proof. reflexivity. Qed.

(** ** The dispatcher *)

(** C8. For every envelope whose method is [initialize], whatever its
    [params], the handler answers without any upstream request with the
    result envelope that echoes the request [id] and carries the fixed
    protocol version, capabilities and server identity. *)
Theorem initialize_result
  (host : Host) (upstream : Upstream) (body : JsVal) :
  field body "method" = JStr "initialize" ->
  run upstream (handler body)
  = ([], inr (JObj [ ("jsonrpc", JStr "2.0");
                     ("id", field body "id");
                     ("result", JObj [
                        ("protocolVersion", JStr "2024-11-05");
                        ("capabilities", JObj [ ("tools", JObj []) ]);
                        ("serverInfo", JObj [
                           ("name", JStr "radiofm-mcp-server");
                           ("version", JStr "1.0.0") ]) ]) ])).
Proof.
  intros M. pose proof (field_str_nullish _ _ _ M) as B.
  unfold handler, mcpPost. dispatch. reflexivity.
Qed.

Lemma initialize_result_witness :
  field (JObj [ ("id", JStr "abc"); ("method", JStr "initialize");
                ("params", JNum 5) ]) "method" = JStr "initialize"
  /\ run (Sample.answering (Sample.reply 0 "ok" None))
         (handler (host := EnUS.host)
            (JObj [ ("id", JStr "abc"); ("method", JStr "initialize");
                    ("params", JNum 5) ]))
     = ([], inr (resultEnvelope (JStr "abc") initializeResult)).
Proof.
  split; [ reflexivity | ].
  apply (initialize_result EnUS.host). reflexivity.
Defined.

(** C1. For every request envelope the handler answers and no exception
    escapes it: what the [try] block returns is the answer, and whatever it
    throws is rendered by the one [catch] as the error envelope with the
    request [id], code -32000 and the error's message (or the fallback text
    when that message is empty).  A method other than [initialize],
    [tools/list] and [tools/call] throws, and so does a [tools/call] whose
    [params.name] is not [search_radio_stations]. *)
Theorem failures_become_error_envelopes
  (host : Host) (upstream : Upstream) (body : JsVal) :
  nullish body = false ->
  let method := field body "method" in
  let params := field body "params" in
  let name := field params "name" in
  let attempt := run upstream (tryBlock searchSections body) in
  let answer := run upstream (handler body) in
  (exists response, snd answer = inr response)
  /\ (forall response, snd attempt = inr response -> snd answer = inr response)
  /\ (forall error, snd attempt = inl error ->
      snd answer
      = inr (JObj [ ("jsonrpc", JStr "2.0");
                    ("id", field body "id");
                    ("error", JObj [
                       ("code", JNum (-32000));
                       ("message",
                        JStr (if String.eqb (message error) EmptyString
                              then "Internal server error"
                              else message error)) ]) ]))
  /\ (isStr method "initialize" = false ->
      isStr method "tools/list" = false ->
      isStr method "tools/call" = false ->
      attempt
      = ([], inl match toString method with
                 | Some m => Error ("Unknown method: " ++ m)
                 | None => TypeError CannotConvertToPrimitive
                 end))
  /\ (isStr method "tools/call" = true ->
      isStr name "search_radio_stations" = false ->
      attempt
      = ([], inl (if nullish params
                  then TypeError (CannotDestructure "name" "params" params)
                  else match toString name with
                       | Some n => Error ("Unknown tool: " ++ n)
                       | None => TypeError CannotConvertToPrimitive
                       end))).
Proof.
  intros B. cbv zeta. unfold handler. rewrite (run_mcpPost _ _ _ B).
  split; [ | split; [ | split; [ | split ] ] ].
  - destruct (run upstream (tryBlock searchSections body)) as [calls [e|a]];
      eexists; reflexivity.
  - intros response R.
    destruct (run upstream (tryBlock searchSections body)) as [calls [e|a]];
      simpl in *; congruence.
  - intros error R.
    destruct (run upstream (tryBlock searchSections body)) as [calls [e|a]];
      simpl in *; [ | discriminate ].
    injection R as ->. reflexivity.
  - intros I L C. dispatch. rewrite run_bind, run_str.
    now destruct (toString (field body "method")).
  - intros C N. apply isStr_true in C. dispatch.
    destruct (nullish (field body "params")); [ reflexivity | ].
    cbn [bind]. rewrite run_bind, run_str.
    now destruct (toString _).
Qed.

Lemma failures_become_error_envelopes_witness :
  nullish (JObj [ ("id", JNum 7); ("method", JStr "resources/list") ]) = false
  /\ snd (run (Sample.answering (Sample.reply 0 "ok" None))
            (handler (host := EnUS.host)
               (JObj [ ("id", JNum 7); ("method", JStr "resources/list") ])))
     = inr (errorEnvelope (JNum 7) (-32000) "Unknown method: resources/list").
Proof.
  split; [ reflexivity | ].
  destruct (failures_become_error_envelopes EnUS.host
              (Sample.answering (Sample.reply 0 "ok" None))
              (JObj [ ("id", JNum 7); ("method", JStr "resources/list") ])
              eq_refl) as (_ & _ & rendered & unknown & _).
  specialize (unknown eq_refl eq_refl eq_refl).
  apply (rendered (Error "Unknown method: resources/list")).
  now rewrite unknown.
Defined.

(** C4. For every [tools/call] of [search_radio_stations] whose
    [params.arguments.query] is absent or the empty string, the handler
    answers with the error envelope of code -32000 and message
    [Search query is required], and issues no upstream request. *)
Theorem missing_query_is_rejected
  (host : Host) (upstream : Upstream) (body query : JsVal) :
  isSearchCall body query ->
  query = JUndefined \/ query = JStr EmptyString ->
  run upstream (handler body)
  = ([], inr (JObj [ ("jsonrpc", JStr "2.0");
                     ("id", field body "id");
                     ("error", JObj [
                        ("code", JNum (-32000));
                        ("message", JStr "Search query is required") ]) ])).
Proof.
  intros (M & N & Q) E. unfold handler.
  pose proof (field_str_nullish _ _ _ M) as B.
  pose proof (field_str_nullish _ _ _ N) as P.
  rewrite (run_mcpPost _ _ _ B). dispatch. rewrite Q.
  now destruct E as [-> | ->].
Qed.

Lemma missing_query_is_rejected_witness :
  isSearchCall (Sample.searchFor (JNum 1) (JStr EmptyString)) (JStr EmptyString)
  /\ (JStr EmptyString = JUndefined \/ JStr EmptyString = JStr EmptyString)
  /\ run (Sample.answering (Sample.reply 0 "ok" None))
         (handler (host := EnUS.host)
            (Sample.searchFor (JNum 1) (JStr EmptyString)))
     = ([], inr (errorEnvelope (JNum 1) (-32000) "Search query is required")).
Proof.
  assert (isSearchCall (Sample.searchFor (JNum 1) (JStr EmptyString))
            (JStr EmptyString)) as C by (repeat split).
  split; [ exact C | ]. split; [ now right | ].
  apply (missing_query_is_rejected EnUS.host _ _ (JStr EmptyString) C).
  now right.
Defined.

Example missing_arguments_is_rejected :
  run (Sample.answering (Sample.reply 0 "ok" None))
      (handler (host := EnUS.host)
         (JObj [ ("id", JNum 2); ("method", JStr "tools/call");
                 ("params", JObj [ ("name", JStr "search_radio_stations") ]) ]))
  = ([], inr (errorEnvelope (JNum 2) (-32000) "Search query is required")).
Proof. reflexivity. Qed.

(** C9. For every request the handler issues at most one upstream GET:
    exactly the search request when the envelope is a [tools/call] of
    [search_radio_stations] with a non-empty query, and none when the method
    is not [tools/call] ([initialize], [tools/list], unknown methods), when
    the tool is unknown, and when the query is missing. *)
Theorem at_most_one_upstream_get
  (host : Host) (upstream : Upstream) (body : JsVal) :
  let calls := fst (run upstream (handler body)) in
  let params := field body "params" in
  let query := optField (field params "arguments") "query" in
  length calls <= 1
  /\ (forall q, isSearchCall body (JStr q) -> q <> EmptyString ->
      calls
      = [ {| Axios.url :=
               "https://devappradiofm.radiofm.co/rfm/api/new_combo_search.php";
             Axios.params := [ ("srch", JStr q) ];
             Axios.timeout := 15000 |} ])
  /\ (isStr (field body "method") "tools/call" = false -> calls = [])
  /\ (isStr (field params "name") "search_radio_stations" = false -> calls = [])
  /\ (truthy query = false -> calls = []).
Proof.
  cbv zeta. unfold handler. rewrite mcpPost_calls. cbv zeta.
  repeat split.
  - destruct (_ && _ && _); simpl; lia.
  - intros q (M & N & Q) E. rewrite M, N, Q. simpl.
    apply String.eqb_neq in E. now rewrite E.
  - intros M. now rewrite M.
  - intros N. rewrite N. now rewrite andb_false_r.
  - intros T. rewrite T. now rewrite andb_false_r.
Qed.

Lemma at_most_one_upstream_get_witness :
  isSearchCall (Sample.searchFor (JNum 1) (JStr "jazz")) (JStr "jazz")
  /\ "jazz" <> EmptyString
  /\ fst (run (fun _ => Axios.Rejected "timeout of 15000ms exceeded")
            (handler (host := EnUS.host)
               (Sample.searchFor (JNum 1) (JStr "jazz"))))
     = [ searchRequest (JStr "jazz") ].
Proof.
  assert (isSearchCall (Sample.searchFor (JNum 1) (JStr "jazz")) (JStr "jazz"))
    as C by (repeat split).
  assert ("jazz" <> EmptyString) as N by discriminate.
  split; [ exact C | ]. split; [ exact N | ].
  exact (proj1 (proj2 (at_most_one_upstream_get EnUS.host
           (fun _ => Axios.Rejected "timeout of 15000ms exceeded")
           (Sample.searchFor (JNum 1) (JStr "jazz")))) "jazz" C N).
Defined.

(** A rejected request (timeout, network failure, status outside 2xx) is
    rendered like any other failure. *)
Example upstream_timeout_is_rendered :
  run (fun _ => Axios.Rejected "timeout of 15000ms exceeded")
      (handler (host := EnUS.host) (Sample.searchFor (JNum 1) (JStr "jazz")))
  = ([ searchRequest (JStr "jazz") ],
     inr (errorEnvelope (JNum 1) (-32000) "timeout of 15000ms exceeded")).
Proof. reflexivity. Qed.

(** Outside the parsed envelopes: were [req.body] itself [undefined], the
    [catch] would throw while reading [req.body.id]. *)
Example undefined_body_escapes :
  run (Sample.answering (Sample.reply 0 "ok" None))
      (handler (host := EnUS.host) JUndefined)
  = ([], inl (TypeError (CannotRead "id" JUndefined))).
Proof. reflexivity. Qed.

(** ** The search adapter *)

(** C2, as amended. For every [tools/call] of [search_radio_stations] with a
    non-empty query whose upstream body has a non-zero [ErrorCode], the
    handler answers with the error envelope of code -32000 whose message is
    the upstream [ErrorMessage], unwrapped, when that message is not empty,
    and [Internal server error] when it is empty. *)
Theorem upstream_error_message
  (host : Host) (upstream : Upstream) (body : JsVal) (q : string)
  (apiData : ApiResponse.t) :
  isSearchCall body (JStr q) ->
  q <> EmptyString ->
  upstream (searchRequest (JStr q)) = Axios.Fulfilled apiData ->
  ApiResponse.ErrorCode (ApiResponse.data apiData) <> 0%Z ->
  let upstreamMessage := ApiResponse.ErrorMessage (ApiResponse.data apiData) in
  run upstream (handler body)
  = ([searchRequest (JStr q)],
     inr (JObj [ ("jsonrpc", JStr "2.0");
                 ("id", field body "id");
                 ("error", JObj [
                    ("code", JNum (-32000));
                    ("message",
                     JStr (if String.eqb upstreamMessage EmptyString
                           then "Internal server error"
                           else upstreamMessage)) ]) ])).
Proof.
  intros C N F E. unfold handler.
  now rewrite (run_search_error _ upstream body q apiData C N F E).
Qed.

Lemma upstream_error_message_witness :
  isSearchCall (Sample.searchFor (JNum 1) (JStr "jazz")) (JStr "jazz")
  /\ "jazz" <> EmptyString
  /\ Sample.answering (Sample.reply 7 "rate limited" None)
       (searchRequest (JStr "jazz"))
     = Axios.Fulfilled (Sample.reply 7 "rate limited" None)
  /\ ApiResponse.ErrorCode (ApiResponse.data (Sample.reply 7 "rate limited" None))
     <> 0%Z
  /\ run (Sample.answering (Sample.reply 7 "rate limited" None))
         (handler (host := EnUS.host) (Sample.searchFor (JNum 1) (JStr "jazz")))
     = ([searchRequest (JStr "jazz")],
        inr (errorEnvelope (JNum 1) (-32000) "rate limited")).
Proof.
  assert (isSearchCall (Sample.searchFor (JNum 1) (JStr "jazz")) (JStr "jazz"))
    as C by (repeat split).
  assert ("jazz" <> EmptyString) as N by discriminate.
  assert (ApiResponse.ErrorCode
            (ApiResponse.data (Sample.reply 7 "rate limited" None)) <> 0%Z)
    as E by discriminate.
  split; [ exact C | ]. split; [ exact N | ]. split; [ reflexivity | ].
  split; [ exact E | ].
  exact (upstream_error_message EnUS.host
           (Sample.answering (Sample.reply 7 "rate limited" None))
           (Sample.searchFor (JNum 1) (JStr "jazz")) "jazz"
           (Sample.reply 7 "rate limited" None) C N eq_refl E).
Defined.

(** C2, as stated, fails on an upstream error whose message is empty: the
    envelope then carries the fallback text, not the upstream message. *)
Lemma upstream_error_empty_message_counterexample :
  isSearchCall (Sample.searchFor (JNum 1) (JStr "jazz")) (JStr "jazz")
  /\ ApiResponse.ErrorCode (ApiResponse.data (Sample.reply 7 EmptyString None))
     = 7%Z
  /\ run (Sample.answering (Sample.reply 7 EmptyString None))
         (handler (host := EnUS.host) (Sample.searchFor (JNum 1) (JStr "jazz")))
     = ([searchRequest (JStr "jazz")],
        inr (errorEnvelope (JNum 1) (-32000) "Internal server error"))
  /\ "Internal server error"
     <> ApiResponse.ErrorMessage
          (ApiResponse.data (Sample.reply 7 EmptyString None)).
Proof.
  split; [ repeat split | ]. split; [ reflexivity | ].
  split; [ reflexivity | discriminate ].
Qed.

(** C5. For every [tools/call] of [search_radio_stations] with a non-empty
    query whose upstream body has [ErrorCode] 0 and an empty or absent
    [Data], the handler answers with a result whose content is one item of
    type [text] holding the fixed guidance message with the query put in
    literally. *)
Theorem no_results_message
  (host : Host) (upstream : Upstream) (body : JsVal) (q : string)
  (apiData : ApiResponse.t) :
  isSearchCall body (JStr q) ->
  q <> EmptyString ->
  upstream (searchRequest (JStr q)) = Axios.Fulfilled apiData ->
  ApiResponse.ErrorCode (ApiResponse.data apiData) = 0%Z ->
  ApiResponse.Data (ApiResponse.data apiData) = None
  \/ ApiResponse.Data (ApiResponse.data apiData) = Some [] ->
  run upstream (handler body)
  = ([searchRequest (JStr q)],
     inr (JObj [ ("jsonrpc", JStr "2.0");
                 ("id", field body "id");
                 ("result", JObj [
                    ("content", JArr [
                       JObj [ ("type", JStr "text");
                              ("text", JStr (
    "🔍 No results found for " ++ dq ++ q ++ dq ++ nl ++ nl
    ++ "Try searching with:" ++ nl
    ++ "- Station name (e.g., " ++ dq ++ "BBC" ++ dq ++ ", "
      ++ dq ++ "NPR" ++ dq ++ ")" ++ nl
    ++ "- Country (e.g., " ++ dq ++ "UK" ++ dq ++ ", " ++ dq ++ "USA" ++ dq
      ++ ", " ++ dq ++ "India" ++ dq ++ ")" ++ nl
    ++ "- Language (e.g., " ++ dq ++ "English" ++ dq ++ ", "
      ++ dq ++ "Spanish" ++ dq ++ ")" ++ nl
    ++ "- Genre (e.g., " ++ dq ++ "Jazz" ++ dq ++ ", " ++ dq ++ "News" ++ dq
      ++ ", " ++ dq ++ "Rock" ++ dq ++ ")")) ] ]) ]) ])).
Proof.
  intros C N F E D. unfold handler.
  rewrite (run_search_none _ upstream body q apiData C N F E D).
  unfold resultEnvelope, textContent, noResults, quoted.
  now rewrite !append_assoc.
Qed.

Lemma no_results_message_witness :
  isSearchCall (Sample.searchFor (JNum 1) (JStr "zzz")) (JStr "zzz")
  /\ "zzz" <> EmptyString
  /\ Sample.answering (Sample.reply 0 "ok" (Some [])) (searchRequest (JStr "zzz"))
     = Axios.Fulfilled (Sample.reply 0 "ok" (Some []))
  /\ ApiResponse.ErrorCode (ApiResponse.data (Sample.reply 0 "ok" (Some [])))
     = 0%Z
  /\ run (Sample.answering (Sample.reply 0 "ok" (Some [])))
         (handler (host := EnUS.host) (Sample.searchFor (JNum 1) (JStr "zzz")))
     = ([searchRequest (JStr "zzz")],
        inr (resultEnvelope (JNum 1) (textContent (noResults "zzz")))).
Proof.
  assert (isSearchCall (Sample.searchFor (JNum 1) (JStr "zzz")) (JStr "zzz"))
    as C by (repeat split).
  assert ("zzz" <> EmptyString) as N by discriminate.
  split; [ exact C | ]. split; [ exact N | ]. split; [ reflexivity | ].
  split; [ reflexivity | ].
  exact (no_results_message EnUS.host
           (Sample.answering (Sample.reply 0 "ok" (Some [])))
           (Sample.searchFor (JNum 1) (JStr "zzz")) "zzz"
           (Sample.reply 0 "ok" (Some [])) C N eq_refl eq_refl
           (or_intror eq_refl)).
Defined.

(** C3, as amended. For every [tools/call] of [search_radio_stations] whose
    upstream body has [ErrorCode] 0 and a non-empty [Data], the text is,
    joined by newlines: the header line with the query; then, when the first
    group tagged [radio] has entries, the heading [RADIO STATIONS (N)] and
    the N stations rendered by the station formatter, numbered from 1 in
    input order; then the closing line.  [src/index.ts] renders no podcast;
    the compiled build puts, between the radio block and the closing line,
    the heading [PODCASTS (M)] and the M podcasts of the first group tagged
    [podcast], rendered by the podcast formatter and numbered from 1 in
    input order, when that group has entries. *)
Theorem search_text_assembly
  (host : Host) (upstream : Upstream) (body : JsVal) (q : string)
  (apiData : ApiResponse.t) (results : list Group.t) :
  isSearchCall body (JStr q) ->
  q <> EmptyString ->
  upstream (searchRequest (JStr q)) = Axios.Fulfilled apiData ->
  ApiResponse.ErrorCode (ApiResponse.data apiData) = 0%Z ->
  ApiResponse.Data (ApiResponse.data apiData) = Some results ->
  results <> [] ->
  let answer (sections : list string) :=
    ([searchRequest (JStr q)],
     inr (JObj [ ("jsonrpc", JStr "2.0");
                 ("id", field body "id");
                 ("result", JObj [
                    ("content", JArr [
                       JObj [ ("type", JStr "text");
                              ("text", JStr (join nl sections)) ] ]) ]) ])) in
  run upstream (handler body)
  = answer ([ headerLine q ]
            ++ block "RADIO STATIONS" formatRadioStation
                 (findGroup "radio" results)
            ++ [ closingLine ])%list
  /\ run upstream (Compiled.handler body)
     = answer ([ headerLine q ]
               ++ block "RADIO STATIONS" Compiled.formatRadioStation
                    (findGroup "radio" results)
               ++ block "PODCASTS" formatPodcast (findGroup "podcast" results)
               ++ [ closingLine ])%list.
Proof.
  intros C N F E D R. cbv zeta. unfold handler, Compiled.handler.
  rewrite !(run_search_some _ upstream body q apiData C N F results E D R).
  now rewrite searchSections_blocks, Compiled_searchSections_blocks.
Qed.

Lemma search_text_assembly_witness :
  isSearchCall (Sample.searchFor (JNum 1) (JStr "london")) (JStr "london")
  /\ "london" <> EmptyString
  /\ [ Sample.radioGroup; Sample.podcastGroup ] <> []
  /\ run (Sample.answering
            (Sample.reply 0 "ok" (Some [ Sample.radioGroup; Sample.podcastGroup ])))
         (handler (host := EnUS.host) (Sample.searchFor (JNum 1) (JStr "london")))
     = ([searchRequest (JStr "london")],
        inr (resultEnvelope (JNum 1) (textContent (join nl
          [ headerLine "london";
            nl ++ "RADIO STATIONS (2)";
            formatRadioStation (host := EnUS.host)
              (RadioStation_obj Sample.bbc) 1;
            formatRadioStation (host := EnUS.host)
              (RadioStation_obj Sample.jazz) 2;
            closingLine ])))).
Proof.
  assert (isSearchCall (Sample.searchFor (JNum 1) (JStr "london")) (JStr "london"))
    as C by (repeat split).
  assert ("london" <> EmptyString) as N by discriminate.
  assert ([ Sample.radioGroup; Sample.podcastGroup ] <> []) as R by discriminate.
  split; [ exact C | ]. split; [ exact N | ]. split; [ exact R | ].
  exact (proj1 (search_text_assembly EnUS.host
                  (Sample.answering
                     (Sample.reply 0 "ok"
                        (Some [ Sample.radioGroup; Sample.podcastGroup ])))
                  (Sample.searchFor (JNum 1) (JStr "london")) "london"
                  (Sample.reply 0 "ok"
                     (Some [ Sample.radioGroup; Sample.podcastGroup ]))
                  [ Sample.radioGroup; Sample.podcastGroup ]
                  C N eq_refl eq_refl eq_refl R)).
Defined.

(** C3, as stated, fails on [src/index.ts]: a [podcast] group with an entry
    leaves no trace in the text, which is the header and the closing line. *)
Lemma podcast_group_not_rendered_counterexample :
  findGroup "podcast" [ Sample.podcastGroup ] = Some Sample.podcastGroup
  /\ Group.data Sample.podcastGroup
     = [ Podcast_obj (Sample.daily "News of the day") ]
  /\ run (Sample.answering (Sample.reply 0 "ok" (Some [ Sample.podcastGroup ])))
         (handler (host := EnUS.host) (Sample.searchFor (JNum 1) (JStr "news")))
     = ([searchRequest (JStr "news")],
        inr (resultEnvelope (JNum 1)
               (textContent (headerLine "news" ++ nl ++ closingLine))))
  /\ includes
       (formatPodcast (host := EnUS.host)
          (Podcast_obj (Sample.daily "News of the day")) 1)
       (headerLine "news" ++ nl ++ closingLine)
     = false.
Proof.
  split; [ reflexivity | ]. split; [ reflexivity | ].
  split; reflexivity.
Qed.

(** The compiled build renders that group, under its own heading. *)
Example Compiled_podcast_group_rendered :
  run (Sample.answering (Sample.reply 0 "ok" (Some [ Sample.podcastGroup ])))
      (Compiled.handler (host := EnUS.host)
         (Sample.searchFor (JNum 1) (JStr "news")))
  = ([searchRequest (JStr "news")],
     inr (resultEnvelope (JNum 1) (textContent (join nl
       [ headerLine "news";
         nl ++ "PODCASTS (1)";
         formatPodcast (host := EnUS.host)
           (Podcast_obj (Sample.daily "News of the day")) 1;
         closingLine ])))).
Proof. reflexivity. Qed.

(** One radio group with two stations: the heading counts two, the entries
    follow in input order, and there is no podcast section. *)
Example two_stations_text :
  snd (run (Sample.answering (Sample.reply 0 "ok" (Some [ Sample.radioGroup ])))
         (handler (host := EnUS.host) (Sample.searchFor (JNum 1) (JStr "london"))))
  = inr (resultEnvelope (JNum 1) (textContent (
      "Search Results for " ++ dq ++ "london" ++ dq ++ nl
      ++ nl ++ "RADIO STATIONS (2)" ++ nl
      ++ "1. BBC World Service" ++ nl
      ++ "Location: London, England, United Kingdom" ++ nl
      ++ "Language: English" ++ nl
      ++ "Genre: News" ++ nl
      ++ "Stream: MP3 128kbps" ++ nl
      ++ "Plays: 1,234,567" ++ nl
      ++ "Listen:'https://appradiofm.com/radioplay/' bbc-world" ++ nl
      ++ "2. Jazz FM" ++ nl
      ++ "Location: London, England, United Kingdom" ++ nl
      ++ "Language: English" ++ nl
      ++ "Genre: Jazz" ++ nl
      ++ "Frequency: 102.2" ++ nl
      ++ "Stream: AAC 64kbps" ++ nl
      ++ "Plays: 980" ++ nl
      ++ "Listen:'https://appradiofm.com/radioplay/' jazz-fm" ++ nl
      ++ nl ++ "Tap on any " ++ dq ++ "Listen" ++ dq
      ++ " link to play on radiofm.co"))).
Proof. reflexivity. Qed.

(** C10. For every [tools/call] of [search_radio_stations] whose upstream
    body has [ErrorCode] 0 and a non-empty [Data] in which no group tagged
    [radio] or [podcast] has entries, the handler answers with a result
    whose text is the header line with the query and the closing line,
    joined by a newline, and not the guidance message; so does the compiled
    build. *)
Theorem empty_groups_text
  (host : Host) (upstream : Upstream) (body : JsVal) (q : string)
  (apiData : ApiResponse.t) (results : list Group.t) :
  isSearchCall body (JStr q) ->
  q <> EmptyString ->
  upstream (searchRequest (JStr q)) = Axios.Fulfilled apiData ->
  ApiResponse.ErrorCode (ApiResponse.data apiData) = 0%Z ->
  ApiResponse.Data (ApiResponse.data apiData) = Some results ->
  results <> [] ->
  (forall g, In g results ->
     Group.type g = "radio" \/ Group.type g = "podcast" -> Group.data g = []) ->
  let text :=
    "Search Results for " ++ dq ++ q ++ dq ++ nl
    ++ nl ++ "Tap on any " ++ dq ++ "Listen" ++ dq
    ++ " link to play on radiofm.co" in
  let answer :=
    ([searchRequest (JStr q)],
     inr (JObj [ ("jsonrpc", JStr "2.0");
                 ("id", field body "id");
                 ("result", JObj [
                    ("content", JArr [
                       JObj [ ("type", JStr "text");
                              ("text", JStr text) ] ]) ]) ])) in
  run upstream (handler body) = answer
  /\ run upstream (Compiled.handler body) = answer
  /\ text <> noResults q.
Proof.
  intros C N F E D R G. cbv zeta. unfold handler, Compiled.handler.
  rewrite !(run_search_some _ upstream body q apiData C N F results E D R).
  rewrite searchSections_blocks, Compiled_searchSections_blocks.
  rewrite !block_of_empty by (intros g I T; apply (G g I); auto).
  cbn [app join String.concat]. unfold headerLine, closingLine.
  rewrite !append_assoc.
  split; [ reflexivity | ]. split; [ reflexivity | ].
  unfold noResults. discriminate.
Qed.

Lemma empty_groups_text_witness :
  isSearchCall (Sample.searchFor (JNum 1) (JStr "jazz")) (JStr "jazz")
  /\ "jazz" <> EmptyString
  /\ [ Sample.emptyRadioGroup ] <> []
  /\ (forall g, In g [ Sample.emptyRadioGroup ] ->
        Group.type g = "radio" \/ Group.type g = "podcast" -> Group.data g = [])
  /\ run (Sample.answering (Sample.reply 0 "ok" (Some [ Sample.emptyRadioGroup ])))
         (handler (host := EnUS.host) (Sample.searchFor (JNum 1) (JStr "jazz")))
     = ([searchRequest (JStr "jazz")],
        inr (resultEnvelope (JNum 1)
               (textContent (headerLine "jazz" ++ nl ++ closingLine)))).
Proof.
  assert (isSearchCall (Sample.searchFor (JNum 1) (JStr "jazz")) (JStr "jazz"))
    as C by (repeat split).
  assert ("jazz" <> EmptyString) as N by discriminate.
  assert ([ Sample.emptyRadioGroup ] <> []) as R by discriminate.
  assert (forall g, In g [ Sample.emptyRadioGroup ] ->
            Group.type g = "radio" \/ Group.type g = "podcast" ->
            Group.data g = []) as G.
  { intros g [<- | []] _. reflexivity. }
  split; [ exact C | ]. split; [ exact N | ]. split; [ exact R | ].
  split; [ exact G | ].
  exact (proj1 (empty_groups_text EnUS.host
                  (Sample.answering
                     (Sample.reply 0 "ok" (Some [ Sample.emptyRadioGroup ])))
                  (Sample.searchFor (JNum 1) (JStr "jazz")) "jazz"
                  (Sample.reply 0 "ok" (Some [ Sample.emptyRadioGroup ]))
                  [ Sample.emptyRadioGroup ]
                  C N eq_refl eq_refl eq_refl R G)).
Defined.

(** ** Further properties of [src/index.ts] *)

Lemma orElse_nonempty (s fallback : string) :
  fallback <> EmptyString -> orElse s fallback <> EmptyString.
Proof.
  intros F. unfold orElse. destruct (String.eqb s EmptyString) eqn:E.
  - exact F.
  - now apply String.eqb_neq.
Qed.

Lemma orElse_keeps (s fallback : string) :
  s <> EmptyString -> orElse s fallback = s.
Proof.
  intros N. unfold orElse. apply String.eqb_neq in N. now rewrite N.
Qed.

Section Returns.
Context {host : Host}.
Variable sections : string -> list Group.t -> list string.
Variable upstream : Upstream.

(** Whatever the code after the [await] returns is a result envelope for
    the request [id] holding one text item. *)
Lemma afterAwait_returns (id query : JsVal) (apiData : ApiResponse.t)
  (response : JsVal) :
  snd (run upstream (afterAwait sections id query apiData)) = inr response ->
  exists text, response = resultEnvelope id (textContent text).
Proof.
  unfold afterAwait. destruct (negb _); [ discriminate | ].
  destruct (ApiResponse.Data _) as [[|g results]|];
    rewrite run_bind, run_str; destruct (toString query); simpl;
    intros R; try discriminate; injection R as <-; eexists; reflexivity.
Qed.

(** Whatever the [try] block returns is a result envelope for the request
    [id] whose result is an object. *)
Lemma tryBlock_returns (body response : JsVal) :
  snd (run upstream (tryBlock sections body)) = inr response ->
  exists members, response = resultEnvelope (field body "id") (JObj members).
Proof.
  unfold tryBlock, destructure.
  destruct (nullish body); [ discriminate | ]. cbn [bind].
  destruct (isStr (field body "method") "initialize").
  { intros R. injection R as <-. eexists. reflexivity. }
  destruct (isStr (field body "method") "tools/list").
  { intros R. injection R as <-. eexists. reflexivity. }
  destruct (isStr (field body "method") "tools/call").
  - destruct (nullish (field body "params")); [ discriminate | ]. cbn [bind].
    destruct (isStr (field (field body "params") "name") "search_radio_stations").
    + destruct (negb _); [ discriminate | ].
      cbn [axiosGet bind run].
      destruct (upstream _) as [apiData|message]; [ | discriminate ].
      cbn [bind]. intros R.
      set (query := optField (field (field body "params") "arguments") "query")
        in *.
      destruct (run upstream (afterAwait sections (field body "id") query apiData))
        as [calls r] eqn:A.
      simpl in R. subst r.
      destruct (afterAwait_returns (field body "id") query apiData response)
        as [text ->]; [ now rewrite A | ].
      eexists. reflexivity.
    + rewrite run_bind, run_str. now destruct (toString _).
  - rewrite run_bind, run_str. now destruct (toString _).
Qed.
End Returns.

(** X1. Every answer of the handler to a parsed envelope is a JSON-RPC 2.0
    envelope that echoes the request [id] and carries either a [result]
    object and no [error], or no [result] and an [error] of code -32000
    whose message is never empty. *)
Theorem answers_are_envelopes
  (host : Host) (upstream : Upstream) (body : JsVal) :
  nullish body = false ->
  exists response,
    snd (run upstream (handler body)) = inr response
    /\ field response "jsonrpc" = JStr "2.0"
    /\ field response "id" = field body "id"
    /\ ((exists members, field response "result" = JObj members)
        /\ field response "error" = JUndefined
        \/ field response "result" = JUndefined
           /\ field (field response "error") "code" = JNum (-32000)
           /\ exists text, field (field response "error") "message" = JStr text
                           /\ text <> EmptyString).
Proof.
  intros B. unfold handler. rewrite (run_mcpPost _ _ _ B).
  destruct (run upstream (tryBlock searchSections body)) as [calls [e|r]] eqn:R.
  - eexists. split; [ reflexivity | ]. repeat split. right. repeat split.
    eexists. split; [ reflexivity | ]. now apply orElse_nonempty.
  - destruct (tryBlock_returns searchSections upstream body r) as [members ->];
      [ now rewrite R | ].
    eexists. split; [ reflexivity | ]. repeat split. left. split.
    + now exists members.
    + reflexivity.
Qed.

Lemma answers_are_envelopes_witness :
  nullish (Sample.searchFor (JNum 3) (JStr "jazz")) = false
  /\ exists response,
       snd (run (Sample.answering (Sample.reply 7 "rate limited" None))
              (handler (host := EnUS.host) (Sample.searchFor (JNum 3) (JStr "jazz"))))
       = inr response
       /\ field response "id" = JNum 3.
Proof.
  split; [ reflexivity | ].
  destruct (answers_are_envelopes EnUS.host
              (Sample.answering (Sample.reply 7 "rate limited" None))
              (Sample.searchFor (JNum 3) (JStr "jazz")) eq_refl)
    as (response & R & _ & I & _).
  exists response. split; [ exact R | exact I ].
Defined.

(** X2. For every envelope whose method is [tools/list] the handler answers,
    without an upstream request, with a result that echoes the [id] and
    advertises exactly one tool, [search_radio_stations], whose input schema
    requires exactly [query]. *)
Theorem tools_list_result
  (host : Host) (upstream : Upstream) (body : JsVal) :
  field body "method" = JStr "tools/list" ->
  exists response,
    run upstream (handler body) = ([], inr response)
    /\ field response "id" = field body "id"
    /\ advertisedNames (field response "result")
       = [ JStr "search_radio_stations" ]
    /\ map (fun tool => elements (field (field tool "inputSchema") "required"))
           (elements (field (field response "result") "tools"))
       = [ [ JStr "query" ] ].
Proof.
  intros M. pose proof (field_str_nullish _ _ _ M) as B.
  exists (resultEnvelope (field body "id") toolsListResult).
  split; [ | repeat split ].
  unfold handler, mcpPost. dispatch. reflexivity.
Qed.

Lemma tools_list_result_witness :
  field (JObj [ ("method", JStr "tools/list"); ("id", JNum 2) ]) "method"
  = JStr "tools/list"
  /\ exists response,
       run (Sample.answering (Sample.reply 0 "ok" None))
           (handler (host := EnUS.host)
              (JObj [ ("method", JStr "tools/list"); ("id", JNum 2) ]))
       = ([], inr response)
       /\ field response "id" = JNum 2.
Proof.
  split; [ reflexivity | ].
  destruct (tools_list_result EnUS.host
              (Sample.answering (Sample.reply 0 "ok" None))
              (JObj [ ("method", JStr "tools/list"); ("id", JNum 2) ]) eq_refl)
    as (response & R & I & _).
  exists response. split; [ exact R | exact I ].
Defined.

(** X3. [tools/call] accepts exactly the tool names that [tools/list]
    advertises: for a call whose [params.name] is the string [n], the answer
    is the [Unknown tool: n] error envelope, with no upstream request, if
    and only if [n] is not among the advertised names. *)
Theorem advertised_tools_are_the_accepted_ones
  (host : Host) (upstream : Upstream) (body : JsVal) (n : string) :
  field body "method" = JStr "tools/call" ->
  field (field body "params") "name" = JStr n ->
  (~ In (JStr n) (advertisedNames toolsListResult)
   <-> run upstream (handler body)
       = ([], inr (errorEnvelope (field body "id") (-32000)
                     ("Unknown tool: " ++ n)))).
Proof.
  intros M N.
  pose proof (field_str_nullish _ _ _ M) as B.
  pose proof (field_str_nullish _ _ _ N) as P.
  unfold handler. rewrite (run_mcpPost _ _ _ B).
  destruct (String.eqb n "search_radio_stations") eqn:E.
  - apply String.eqb_eq in E. subst n. split.
    + intros H. exfalso. apply H. now left.
    + intros R. exfalso.
      destruct (truthy (optField (field (field body "params") "arguments") "query"))
        eqn:T.
      * rewrite (tryBlock_search _ _ _ _ (conj M (conj N eq_refl)) T) in R.
        destruct (upstream _) as [apiData|message];
          [ destruct (snd _) | ]; discriminate.
      * revert R. dispatch. rewrite T. discriminate.
  - split.
    + intros _.
      assert (isStr (field (field body "params") "name") "search_radio_stations"
              = false) as U by (rewrite N; exact E).
      revert N. dispatch. intros N. rewrite run_bind, run_str, N. reflexivity.
    + intros _ [H | []]. injection H as H. subst n.
      now rewrite String.eqb_refl in E.
Qed.

Lemma advertised_tools_are_the_accepted_ones_witness :
  field (JObj [ ("method", JStr "tools/call");
                ("params", JObj [ ("name", JStr "play") ]) ]) "method"
  = JStr "tools/call"
  /\ run (Sample.answering (Sample.reply 0 "ok" None))
         (handler (host := EnUS.host)
            (JObj [ ("method", JStr "tools/call");
                    ("params", JObj [ ("name", JStr "play") ]) ]))
     = ([], inr (errorEnvelope JUndefined (-32000) "Unknown tool: play")).
Proof.
  split; [ reflexivity | ].
  apply (advertised_tools_are_the_accepted_ones EnUS.host
           (Sample.answering (Sample.reply 0 "ok" None))
           (JObj [ ("method", JStr "tools/call");
                   ("params", JObj [ ("name", JStr "play") ]) ])
           "play" eq_refl eq_refl).
  intros [H | []]. discriminate H.
Defined.

(** X4. A method that is none of [initialize], [tools/list] and
    [tools/call], holds no number beyond the safe integers and prints as
    [m], is answered, without an upstream request, by the error envelope
    whose message is [Unknown method: m]; a missing method prints as
    [undefined]. *)
Theorem unknown_method_envelope
  (host : Host) (upstream : Upstream) (body : JsVal) (m : string) :
  nullish body = false ->
  safeNumbers (field body "method") = true ->
  toString (field body "method") = Some m ->
  isStr (field body "method") "initialize" = false ->
  isStr (field body "method") "tools/list" = false ->
  isStr (field body "method") "tools/call" = false ->
  run upstream (handler body)
  = ([], inr (JObj [ ("jsonrpc", JStr "2.0");
                     ("id", field body "id");
                     ("error", JObj [
                        ("code", JNum (-32000));
                        ("message", JStr ("Unknown method: " ++ m)) ]) ])).
Proof.
  intros B _ S I L C. unfold handler. rewrite (run_mcpPost _ _ _ B).
  dispatch. rewrite run_bind, run_str, S. reflexivity.
Qed.

Lemma unknown_method_envelope_witness :
  nullish (JObj [ ("id", JNum 4) ]) = false
  /\ safeNumbers (field (JObj [ ("id", JNum 4) ]) "method") = true
  /\ toString (field (JObj [ ("id", JNum 4) ]) "method") = Some "undefined"
  /\ run (Sample.answering (Sample.reply 0 "ok" None))
         (handler (host := EnUS.host) (JObj [ ("id", JNum 4) ]))
     = ([], inr (errorEnvelope (JNum 4) (-32000) "Unknown method: undefined")).
Proof.
  split; [ reflexivity | ]. split; [ reflexivity | ]. split; [ reflexivity | ].
  exact (unknown_method_envelope EnUS.host
           (Sample.answering (Sample.reply 0 "ok" None))
           (JObj [ ("id", JNum 4) ]) "undefined"
           eq_refl eq_refl eq_refl eq_refl eq_refl eq_refl).
Defined.

(** X5. A [tools/call] whose [params] is missing or [null] is answered,
    without an upstream request, by the error envelope that carries the
    engine's message for the failed destructuring, or the fallback text when
    that message is empty. *)
Theorem call_without_params
  (host : Host) (upstream : Upstream) (body : JsVal) :
  field body "method" = JStr "tools/call" ->
  nullish (field body "params") = true ->
  let engineText :=
    typeErrorMessage
      (CannotDestructure "name" "params" (field body "params")) in
  run upstream (handler body)
  = ([], inr (JObj [ ("jsonrpc", JStr "2.0");
                     ("id", field body "id");
                     ("error", JObj [
                        ("code", JNum (-32000));
                        ("message",
                         JStr (if String.eqb engineText EmptyString
                               then "Internal server error"
                               else engineText)) ]) ])).
Proof.
  intros M P. pose proof (field_str_nullish _ _ _ M) as B.
  cbv zeta. unfold handler. rewrite (run_mcpPost _ _ _ B).
  dispatch. reflexivity.
Qed.

Lemma call_without_params_witness :
  field (JObj [ ("id", JNum 5); ("method", JStr "tools/call") ]) "method"
  = JStr "tools/call"
  /\ nullish (field (JObj [ ("id", JNum 5); ("method", JStr "tools/call") ])
                "params") = true
  /\ run (Sample.answering (Sample.reply 0 "ok" None))
         (handler (host := EnUS.host)
            (JObj [ ("id", JNum 5); ("method", JStr "tools/call") ]))
     = ([], inr (errorEnvelope (JNum 5) (-32000)
                   "Cannot destructure property 'name' of 'params' as it is undefined.")).
Proof.
  split; [ reflexivity | ]. split; [ reflexivity | ].
  exact (call_without_params EnUS.host
           (Sample.answering (Sample.reply 0 "ok" None))
           (JObj [ ("id", JNum 5); ("method", JStr "tools/call") ])
           eq_refl eq_refl).
Defined.

(** X6. The query check is a truthiness test: a query that is [0],
    [false], [null], the empty string or missing is rejected with
    [Search query is required] and no upstream request, whatever its
    type. *)
Theorem falsy_query_is_rejected
  (host : Host) (upstream : Upstream) (body query : JsVal) :
  isSearchCall body query ->
  truthy query = false ->
  run upstream (handler body)
  = ([], inr (JObj [ ("jsonrpc", JStr "2.0");
                     ("id", field body "id");
                     ("error", JObj [
                        ("code", JNum (-32000));
                        ("message", JStr "Search query is required") ]) ])).
Proof.
  intros (M & N & Q) T. unfold handler.
  pose proof (field_str_nullish _ _ _ M) as B.
  pose proof (field_str_nullish _ _ _ N) as P.
  rewrite (run_mcpPost _ _ _ B). dispatch. rewrite Q, T. reflexivity.
Qed.

Lemma falsy_query_is_rejected_witness :
  isSearchCall (Sample.searchFor (JNum 1) (JNum 0)) (JNum 0)
  /\ truthy (JNum 0) = false
  /\ run (Sample.answering (Sample.reply 0 "ok" None))
         (handler (host := EnUS.host) (Sample.searchFor (JNum 1) (JNum 0)))
     = ([], inr (errorEnvelope (JNum 1) (-32000) "Search query is required")).
Proof.
  assert (isSearchCall (Sample.searchFor (JNum 1) (JNum 0)) (JNum 0)) as C
    by (repeat split).
  split; [ exact C | ]. split; [ reflexivity | ].
  exact (falsy_query_is_rejected EnUS.host
           (Sample.answering (Sample.reply 0 "ok" None))
           (Sample.searchFor (JNum 1) (JNum 0)) (JNum 0) C eq_refl).
Defined.

(** X7. When the upstream request is rejected (timeout, network failure,
    status outside 2xx) the handler has issued that one request and answers
    with the error envelope carrying the rejection's message, or the
    fallback text when that message is empty. *)
Theorem upstream_rejection_is_rendered
  (host : Host) (upstream : Upstream) (body query : JsVal) (reason : string) :
  isSearchCall body query ->
  truthy query = true ->
  upstream (searchRequest query) = Axios.Rejected reason ->
  run upstream (handler body)
  = ([searchRequest query],
     inr (JObj [ ("jsonrpc", JStr "2.0");
                 ("id", field body "id");
                 ("error", JObj [
                    ("code", JNum (-32000));
                    ("message",
                     JStr (if String.eqb reason EmptyString
                           then "Internal server error"
                           else reason)) ]) ])).
Proof.
  intros C T R. destruct C as (M & N & Q).
  pose proof (field_str_nullish _ _ _ M) as B.
  unfold handler. rewrite (run_mcpPost _ _ _ B).
  rewrite (tryBlock_search _ _ _ _ (conj M (conj N Q)) T), R. reflexivity.
Qed.

Lemma upstream_rejection_is_rendered_witness :
  isSearchCall (Sample.searchFor (JNum 1) (JStr "jazz")) (JStr "jazz")
  /\ truthy (JStr "jazz") = true
  /\ run (fun _ => Axios.Rejected "Network Error")
         (handler (host := EnUS.host) (Sample.searchFor (JNum 1) (JStr "jazz")))
     = ([searchRequest (JStr "jazz")],
        inr (errorEnvelope (JNum 1) (-32000) "Network Error")).
Proof.
  assert (isSearchCall (Sample.searchFor (JNum 1) (JStr "jazz")) (JStr "jazz"))
    as C by (repeat split).
  split; [ exact C | ]. split; [ reflexivity | ].
  exact (upstream_rejection_is_rendered EnUS.host
           (fun _ => Axios.Rejected "Network Error")
           (Sample.searchFor (JNum 1) (JStr "jazz")) (JStr "jazz")
           "Network Error" C eq_refl eq_refl).
Defined.

(** X8. The query is forwarded as it was given: for every truthy query
    that is a string, [true], a safe integer, an array of such or an
    object, the handler issues exactly the GET of [new_combo_search.php]
    with [srch] set to that value and a timeout of 15000 ms.  The query is
    printed only afterwards: on an empty or absent result list the guidance
    message holds its printed form, and a query that cannot be printed
    fails there, after the request was made. *)
Theorem query_is_forwarded_as_given
  (host : Host) (upstream : Upstream) (body query : JsVal) :
  isSearchCall body query ->
  truthy query = true ->
  safeNumbers query = true ->
  fst (run upstream (handler body))
  = [ {| Axios.url :=
           "https://devappradiofm.radiofm.co/rfm/api/new_combo_search.php";
         Axios.params := [ ("srch", query) ];
         Axios.timeout := 15000 |} ]
  /\ (forall apiData,
        upstream (searchRequest query) = Axios.Fulfilled apiData ->
        ApiResponse.ErrorCode (ApiResponse.data apiData) = 0%Z ->
        ApiResponse.Data (ApiResponse.data apiData) = None
        \/ ApiResponse.Data (ApiResponse.data apiData) = Some [] ->
        snd (run upstream (handler body))
        = inr match toString query with
              | Some printed =>
                  resultEnvelope (field body "id")
                    (textContent (noResults printed))
              | None =>
                  errorEnvelope (field body "id") (-32000)
                    (orElse (typeErrorMessage CannotConvertToPrimitive)
                            "Internal server error")
              end).
Proof.
  intros C T _. pose proof C as (M & N & Q).
  pose proof (field_str_nullish _ _ _ M) as B.
  unfold handler. split.
  - rewrite mcpPost_calls. cbv zeta. rewrite M, N, Q, T. reflexivity.
  - intros apiData F E D. rewrite (run_mcpPost _ _ _ B).
    rewrite (tryBlock_search _ _ _ _ C T), F.
    unfold afterAwait. rewrite E. cbn [Z.eqb negb].
    destruct D as [-> | ->]; rewrite run_bind, run_str;
      now destruct (toString query).
Qed.

Lemma query_is_forwarded_as_given_witness :
  isSearchCall (Sample.searchFor (JNum 1) (JNum 5)) (JNum 5)
  /\ truthy (JNum 5) = true
  /\ safeNumbers (JNum 5) = true
  /\ fst (run (Sample.answering (Sample.reply 0 "ok" None))
            (handler (host := EnUS.host) (Sample.searchFor (JNum 1) (JNum 5))))
     = [ searchRequest (JNum 5) ].
Proof.
  assert (isSearchCall (Sample.searchFor (JNum 1) (JNum 5)) (JNum 5)) as C
    by (repeat split).
  split; [ exact C | ]. split; [ reflexivity | ]. split; [ reflexivity | ].
  exact (proj1 (query_is_forwarded_as_given EnUS.host
                  (Sample.answering (Sample.reply 0 "ok" None))
                  (Sample.searchFor (JNum 1) (JNum 5)) (JNum 5)
                  C eq_refl eq_refl)).
Defined.

Example unprintable_query_fails_after_the_request :
  run (Sample.answering (Sample.reply 0 "ok" None))
      (handler (host := EnUS.host)
         (Sample.searchFor (JNum 1) (JObj [ ("toString", JNum 1) ])))
  = ([ searchRequest (JObj [ ("toString", JNum 1) ]) ],
     inr (errorEnvelope (JNum 1) (-32000)
            "Cannot convert object to primitive value")).
Proof. reflexivity. Qed.

Lemma findGroup_first (tag : string) (front back : list Group.t) (g : Group.t) :
  (forall r, In r front -> Group.type r <> tag) ->
  Group.type g = tag ->
  findGroup tag (front ++ g :: back) = Some g.
Proof.
  intros F T. unfold findGroup.
  induction front as [|r front IH]; simpl.
  - apply String.eqb_eq in T. now rewrite T.
  - assert (Group.type r <> tag) as R by (apply F; now left).
    apply String.eqb_neq in R. rewrite R.
    apply IH. intros r' I. apply F. now right.
Qed.

Lemma findGroup_none (tag : string) (results : list Group.t) :
  (forall r, In r results -> Group.type r <> tag) ->
  findGroup tag results = None.
Proof.
  intros F. unfold findGroup.
  induction results as [|r results IH]; simpl; [ reflexivity | ].
  assert (Group.type r <> tag) as R by (apply F; now left).
  apply String.eqb_neq in R. rewrite R.
  apply IH. intros r' I. apply F. now right.
Qed.

(** X9. The radio block is taken from the first group tagged [radio] and
    from nothing else: groups before it and every group after it, radio
    groups with stations included, leave the sections as they are for that
    group alone; without any radio group the sections are the header and
    the closing line. *)
Theorem only_the_first_radio_group_counts
  (host : Host) (query : string) (front back : list Group.t) (g : Group.t) :
  (forall r, In r front -> Group.type r <> "radio") ->
  (Group.type g = "radio" ->
   searchSections query (front ++ g :: back) = searchSections query [ g ])
  /\ (searchSections query front
      = [ "Search Results for " ++ dq ++ query ++ dq;
          nl ++ "Tap on any " ++ dq ++ "Listen" ++ dq
          ++ " link to play on radiofm.co" ]).
Proof.
  intros F. split.
  - intros T. unfold searchSections.
    rewrite (findGroup_first "radio" front back g F T).
    pose proof (findGroup_first "radio" [] [] g
                  (fun r (I : In r []) => match I with end) T) as E.
    cbn [app] in E. now rewrite E.
  - unfold searchSections. rewrite (findGroup_none "radio" front F).
    reflexivity.
Qed.

Lemma only_the_first_radio_group_counts_witness :
  (forall r, In r [ Sample.podcastGroup ] -> Group.type r <> "radio")
  /\ searchSections (host := EnUS.host) "jazz"
       ([ Sample.podcastGroup ] ++ Sample.emptyRadioGroup :: [ Sample.radioGroup ])
     = [ headerLine "jazz"; closingLine ].
Proof.
  assert (forall r, In r [ Sample.podcastGroup ] -> Group.type r <> "radio")
    as F by (intros r [<- | []]; discriminate).
  split; [ exact F | ].
  rewrite (proj1 (only_the_first_radio_group_counts EnUS.host "jazz"
                    [ Sample.podcastGroup ] [ Sample.radioGroup ]
                    Sample.emptyRadioGroup F) eq_refl).
  reflexivity.
Defined.

(** X10. The entries of a block keep the input order and count: the entry
    at position [k] (from 0) is the record at position [k] rendered with
    the number [k + 1], and there are as many entries as records. *)
Theorem entries_are_numbered_by_position
  {A : Type} (render : A -> nat -> string) (items : list A) :
  length (mapFromOne render items) = length items
  /\ forall k item,
       nth_error items k = Some item ->
       nth_error (mapFromOne render items) k = Some (render item (k + 1)).
Proof.
  rewrite mapFromOne_numbered.
  enough (forall first,
            length (numbered render first items) = length items
            /\ forall k item,
                 nth_error items k = Some item ->
                 nth_error (numbered render first items) k
                 = Some (render item (k + first))) as G.
  { destruct (G 1) as [L P]. split; [ exact L | exact P ]. }
  induction items as [|x items IH]; intros first; simpl.
  - split; [ reflexivity | ]. intros [|k] item H; discriminate.
  - destruct (IH (S first)) as [L P]. split; [ now rewrite L | ].
    intros [|k] item H; simpl in *.
    + now injection H as ->.
    + rewrite (P k item H). f_equal. f_equal. lia.
Qed.

Lemma entries_are_numbered_by_position_witness :
  nth_error [ RadioStation_obj Sample.bbc; RadioStation_obj Sample.jazz ] 1
  = Some (RadioStation_obj Sample.jazz)
  /\ nth_error
       (mapFromOne (formatRadioStation (host := EnUS.host))
          [ RadioStation_obj Sample.bbc; RadioStation_obj Sample.jazz ]) 1
     = Some (formatRadioStation (host := EnUS.host)
               (RadioStation_obj Sample.jazz) 2).
Proof.
  split; [ reflexivity | ].
  exact (proj2 (entries_are_numbered_by_position
                  (formatRadioStation (host := EnUS.host))
                  [ RadioStation_obj Sample.bbc; RadioStation_obj Sample.jazz ])
               1 (RadioStation_obj Sample.jazz) eq_refl).
Defined.

(** X11. Whether or not a description is rendered, the other five lines of
    [formatPodcast] (index and name, category, language, stream count in
    the locale's format, listen link) are there, in this order and
    unchanged. *)
Theorem formatPodcast_other_lines
  (host : Host) (podcast : Obj) (index : nat) :
  filter (fun line => negb (isDescriptionLine line)) (podcastLines podcast index)
  = [ decimal index ++ ". " ++ show podcast "p_name";
      "Category: " ++ show podcast "cat_name";
      "Language: " ++ show podcast "p_lang";
      "Streams: " ++ localeCount (show podcast "total_stream");
      "Listen: " ++ show podcast "deeplink" ].
Proof.
  unfold podcastLines, push.
  destruct (description podcast); cbn [app filter];
    rewrite decimal_not_description; reflexivity.
Qed.

(** X12. The rendered description is bounded, in UTF-16 code units as
    [length] counts them: it has the length of the description up to 100
    and 103 beyond, so a description line of the formatter never exceeds
    116; a description of 101 or 102 is rendered longer than it is. *)
Theorem description_is_bounded
  (host : Host) (podcast : Obj) (index : nat) :
  (forall d,
     jsLength (shortDesc d)
     = if Nat.ltb 100 (jsLength d) then 103 else jsLength d)
  /\ (forall line,
        In line (podcastLines podcast index) ->
        isDescriptionLine line = true ->
        jsLength line <= 116).
Proof.
  split; [ exact jsLength_shortDesc | ].
  intros line I D.
  assert (In line (filter isDescriptionLine (podcastLines podcast index))) as F
    by (apply filter_In; now split).
  destruct (description podcast) as [d|] eqn:S.
  - rewrite (podcastLines_described podcast index d S) in F.
    destruct F as [<- | []]. rewrite jsLength_append, jsLength_shortDesc.
    change (jsLength "Description: ") with 13.
    destruct (Nat.ltb 100 (jsLength d)) eqn:E; [ lia | ].
    apply Nat.ltb_ge in E. lia.
  - exfalso. revert F. unfold podcastLines, push. rewrite S.
    cbn [app filter]. rewrite decimal_not_description. simpl. tauto.
Qed.

Lemma description_is_bounded_witness :
  In ("Description: " ++ Sample.filler 100 ++ "...")
     (podcastLines (host := EnUS.host)
        (Podcast_obj (Sample.daily (Sample.filler 102))) 1)
  /\ isDescriptionLine ("Description: " ++ Sample.filler 100 ++ "...") = true
  /\ jsLength ("Description: " ++ Sample.filler 100 ++ "...") <= 116.
Proof.
  assert (In ("Description: " ++ Sample.filler 100 ++ "...")
            (podcastLines (host := EnUS.host)
               (Podcast_obj (Sample.daily (Sample.filler 102))) 1)) as I
    by (right; right; right; left; reflexivity).
  split; [ exact I | ]. split; [ reflexivity | ].
  exact (proj2 (description_is_bounded EnUS.host
                  (Podcast_obj (Sample.daily (Sample.filler 102))) 1)
               _ I eq_refl).
Defined.

(** ** The two builds compared *)

(** X13. The station formatters of [src/index.ts] and of the compiled build
    render the same lines except for the last one: the source links through
    the quoted play URL followed by [st_shorturl], the compiled build
    through [deeplink]. *)
Theorem builds_differ_in_the_listen_line
  (host : Host) (station : Obj) (index : nat) :
  exists common,
    stationLines station index
    = push common [ "Listen:'https://appradiofm.com/radioplay/' "
                    ++ show station "st_shorturl" ]
    /\ Compiled.stationLines station index
       = push common [ "Listen:" ++ show station "deeplink" ]
    /\ (length common = 6 \/ length common = 7).
Proof.
  unfold stationLines, Compiled.stationLines, push.
  destruct (differs (own station "st_bc_freq") "~"); cbn [app].
  - eexists (_ :: _ :: _ :: _ :: _ :: _ :: [ _ ]).
    split; [ reflexivity | ]. split; [ reflexivity | now right ].
  - eexists (_ :: _ :: _ :: _ :: _ :: [ _ ]).
    split; [ reflexivity | ]. split; [ reflexivity | now left ].
Qed.

Section BuildsAgree.
Context {host : Host}.
Variable upstream : Upstream.
Hypothesis no_entries :
  forall call apiData,
    upstream call = Axios.Fulfilled apiData ->
    ApiResponse.ErrorCode (ApiResponse.data apiData) = 0%Z ->
    ApiResponse.Data (ApiResponse.data apiData) = None
    \/ ApiResponse.Data (ApiResponse.data apiData) = Some [].

Lemma tryBlock_agree
  (sections sections' : string -> list Group.t -> list string) (body : JsVal) :
  run upstream (tryBlock sections body) = run upstream (tryBlock sections' body).
Proof.
  unfold tryBlock, destructure.
  destruct (nullish body); [ reflexivity | ]. cbn [bind].
  destruct (isStr (field body "method") "initialize"); [ reflexivity | ].
  destruct (isStr (field body "method") "tools/list"); [ reflexivity | ].
  destruct (isStr (field body "method") "tools/call"); [ | reflexivity ].
  destruct (nullish (field body "params")); [ reflexivity | ]. cbn [bind].
  destruct (isStr (field (field body "params") "name") "search_radio_stations");
    [ | reflexivity ].
  destruct (negb _); [ reflexivity | ].
  cbn [axiosGet bind run].
  destruct (upstream _) as [apiData|message] eqn:U; [ | reflexivity ].
  cbn [bind]. unfold afterAwait.
  destruct (ApiResponse.ErrorCode (ApiResponse.data apiData) =? 0)%Z eqn:E;
    [ | reflexivity ].
  apply Z.eqb_eq in E.
  now destruct (no_entries _ _ U E) as [-> | ->].
Qed.
End BuildsAgree.

(** X14. Against an upstream that never answers a non-empty result list,
    the two builds give the same answer to every request and issue the same
    upstream requests: they differ only in the text of a non-empty result
    list. *)
Theorem builds_agree_without_entries
  (host : Host) (upstream : Upstream) (body : JsVal) :
  (forall call apiData,
     upstream call = Axios.Fulfilled apiData ->
     ApiResponse.ErrorCode (ApiResponse.data apiData) = 0%Z ->
     ApiResponse.Data (ApiResponse.data apiData) = None
     \/ ApiResponse.Data (ApiResponse.data apiData) = Some []) ->
  run upstream (Compiled.handler body) = run upstream (handler body).
Proof.
  intros H. unfold handler, Compiled.handler, mcpPost.
  rewrite !run_tryCatch.
  now rewrite (tryBlock_agree upstream H Compiled.searchSections searchSections).
Qed.

Lemma builds_agree_without_entries_witness :
  (forall call apiData,
     Sample.answering (Sample.reply 0 "ok" (Some [])) call
     = Axios.Fulfilled apiData ->
     ApiResponse.ErrorCode (ApiResponse.data apiData) = 0%Z ->
     ApiResponse.Data (ApiResponse.data apiData) = None
     \/ ApiResponse.Data (ApiResponse.data apiData) = Some [])
  /\ run (Sample.answering (Sample.reply 0 "ok" (Some [])))
         (Compiled.handler (host := EnUS.host)
            (Sample.searchFor (JNum 1) (JStr "zzz")))
     = run (Sample.answering (Sample.reply 0 "ok" (Some [])))
           (handler (host := EnUS.host) (Sample.searchFor (JNum 1) (JStr "zzz"))).
Proof.
  assert (forall call apiData,
            Sample.answering (Sample.reply 0 "ok" (Some [])) call
            = Axios.Fulfilled apiData ->
            ApiResponse.ErrorCode (ApiResponse.data apiData) = 0%Z ->
            ApiResponse.Data (ApiResponse.data apiData) = None
            \/ ApiResponse.Data (ApiResponse.data apiData) = Some []) as H.
  { intros call apiData F _. injection F as <-. now right. }
  split; [ exact H | ].
  exact (builds_agree_without_entries EnUS.host _ _ H).
Defined.

(** X15. In the compiled build the order of the blocks is fixed: the radio
    block comes before the podcast block whichever group the upstream lists
    first. *)
Theorem block_order_is_fixed
  (host : Host) (query : string) (radio podcast : Group.t) :
  Group.type radio = "radio" ->
  Group.type podcast = "podcast" ->
  Compiled.searchSections query [ podcast; radio ]
  = Compiled.searchSections query [ radio; podcast ]
  /\ Compiled.searchSections query [ radio; podcast ]
     = ([ headerLine query ]
        ++ block "RADIO STATIONS" Compiled.formatRadioStation (Some radio)
        ++ block "PODCASTS" formatPodcast (Some podcast)
        ++ [ closingLine ])%list.
Proof.
  intros R P. rewrite !Compiled_searchSections_blocks.
  unfold findGroup. cbn [find]. rewrite R, P. cbn.
  split; reflexivity.
Qed.

Lemma block_order_is_fixed_witness :
  Group.type Sample.radioGroup = "radio"
  /\ Group.type Sample.podcastGroup = "podcast"
  /\ Compiled.searchSections (host := EnUS.host) "london"
       [ Sample.podcastGroup; Sample.radioGroup ]
     = Compiled.searchSections (host := EnUS.host) "london"
         [ Sample.radioGroup; Sample.podcastGroup ].
Proof.
  split; [ reflexivity | ]. split; [ reflexivity | ].
  exact (proj1 (block_order_is_fixed EnUS.host "london"
                  Sample.radioGroup Sample.podcastGroup eq_refl eq_refl)).
Defined.

(** ** The first build *)

Section LegacyFacts.
Context {host : Host}.
Variable upstream : Upstream.

Lemma Legacy_run_handler (body : JsVal) :
  nullish body = false ->
  run upstream (Legacy.handler body)
  = match run upstream (Legacy.tryBlock body) with
    | (calls, inr response) => (calls, inr response)
    | (calls, inl error) =>
        (calls, inr (errorEnvelope (field body "id") (-32000)
                      (orElse (message error) "Internal server error")))
    end.
Proof.
  intros N. unfold Legacy.handler. rewrite run_tryCatch.
  destruct (run upstream (Legacy.tryBlock body)) as [calls [e|a]].
  - rewrite (run_catchBlock upstream body e N). now rewrite app_nil_r.
  - reflexivity.
Qed.

Lemma Legacy_afterAwait_no_call (id query : JsVal) (apiData : ApiResponse.t) :
  fst (run upstream (Legacy.afterAwait id query apiData)) = [].
Proof.
  unfold Legacy.afterAwait.
  destruct (negb _); [ reflexivity | ].
  destruct (ApiResponse.Data _) as [[|g results]|];
    rewrite run_bind, run_str; now destruct (toString query).
Qed.
End LegacyFacts.

(** X16. The first build cuts a podcast description at 150 UTF-16 code
    units, not at 100: a description of more than 150 is rendered as its
    first 150 code units followed by ["..."], one of 150 or fewer as it is;
    so a description of 101 to 150 is cut by [src/index.ts] and left whole
    by the first build. *)
Theorem Legacy_description_cut_at_150
  (host : Host) (podcast : Obj) (index : nat) (d : string) :
  own podcast "p_desc" = Some d ->
  d <> EmptyString ->
  (150 < jsLength d ->
   nth_error (Legacy.podcastPieces podcast index) 3
   = Some ("   📝 Description: " ++ jsSubstring0 150 d ++ "..." ++ nl)
   /\ jsLength (jsSubstring0 150 d) = 150)
  /\ (jsLength d <= 150 ->
      nth_error (Legacy.podcastPieces podcast index) 3
      = Some ("   📝 Description: " ++ d ++ nl))
  /\ (100 < jsLength d <= 150 ->
      Legacy.shortDesc d = d
      /\ shortDesc d = jsSubstring0 100 d ++ "...").
Proof.
  intros E N. pose proof (description_some podcast d E N) as S.
  unfold Legacy.podcastPieces, push. rewrite S. cbn [app nth_error].
  unfold Legacy.shortDesc, shortDesc.
  split; [ intros H; split | split; [ intros H | intros [H1 H2]; split ] ].
  - apply Nat.ltb_lt in H. rewrite H. now rewrite append_assoc.
  - apply jsLength_substring0. lia.
  - apply Nat.ltb_ge in H. now rewrite H.
  - apply Nat.ltb_ge in H2. now rewrite H2.
  - apply Nat.ltb_lt in H1. now rewrite H1.
Qed.

Lemma Legacy_description_cut_at_150_witness :
  own (Podcast_obj (Sample.daily (Sample.filler 120))) "p_desc"
  = Some (Sample.filler 120)
  /\ Sample.filler 120 <> EmptyString
  /\ 100 < jsLength (Sample.filler 120) <= 150
  /\ Legacy.shortDesc (Sample.filler 120) = Sample.filler 120
  /\ shortDesc (Sample.filler 120) = Sample.filler 100 ++ "...".
Proof.
  assert (Sample.filler 120 <> EmptyString) as N by discriminate.
  assert (100 < jsLength (Sample.filler 120) <= 150) as L
    by (vm_compute; lia).
  split; [ reflexivity | ]. split; [ exact N | ]. split; [ exact L | ].
  exact (proj2 (proj2 (Legacy_description_cut_at_150 EnUS.host
                         (Podcast_obj (Sample.daily (Sample.filler 120))) 1
                         (Sample.filler 120) eq_refl N)) L).
Defined.

Lemma appendAll_concat (text : string) (pieces : list string) :
  appendAll text pieces = text ++ fold_right append EmptyString pieces.
Proof.
  unfold appendAll. revert text.
  induction pieces as [|piece pieces IH]; intros text; simpl.
  - induction text as [|c text IHt]; simpl; [ reflexivity | now rewrite <- IHt ].
  - now rewrite IH, append_assoc.
Qed.

(** X17. In the first build a station is rendered with a [Website] piece
    exactly when [st_weburl] is present, not empty and not the sentinel
    ["~"], and with a [Frequency] piece exactly when [st_bc_freq] is not the
    sentinel; the website piece, when there, is the last one; the rendering
    is the pieces one after the other. *)
Theorem Legacy_optional_pieces
  (host : Host) (station : Obj) (index : nat) :
  let pieces := Legacy.stationPieces station index in
  (existsb (startsWith "   🌍 Website: ") pieces = true
   <-> exists w, own station "st_weburl" = Some w
                 /\ w <> EmptyString /\ w <> "~")
  /\ (existsb (startsWith "   📻 Frequency: ") pieces = true
      <-> own station "st_bc_freq" <> Some "~")
  /\ (existsb (startsWith "   🌍 Website: ") pieces = true ->
      last pieces EmptyString
      = "   🌍 Website: " ++ show station "st_weburl" ++ nl)
  /\ Legacy.formatRadioStation station index
     = fold_right append EmptyString pieces.
Proof.
  cbv zeta.
  assert (present (own station "st_weburl")
          && differs (own station "st_weburl") "~" = true
          <-> exists w, own station "st_weburl" = Some w
                        /\ w <> EmptyString /\ w <> "~") as W.
  { unfold present, differs. destruct (own station "st_weburl") as [w|].
    - rewrite andb_true_iff, !negb_true_iff, !String.eqb_neq. split.
      + intros [A B]. now exists w.
      + intros (w' & E & A & B). injection E as <-. now split.
    - split; [ discriminate | intros (w & E & _); discriminate ]. }
  pose proof (differs_iff (own station "st_bc_freq") "~") as F.
  split; [ | split; [ | split ] ];
    [ | | | unfold Legacy.formatRadioStation; now rewrite appendAll_concat ];
    unfold Legacy.stationPieces, push;
    destruct (differs (own station "st_bc_freq") "~");
    destruct (present (own station "st_weburl")
              && differs (own station "st_weburl") "~");
    cbn [app]; rewrite <- ?W, <- ?F; simpl;
    try (split; intros; congruence);
    try (intros; congruence);
    try reflexivity.
Qed.

Lemma Legacy_optional_pieces_witness :
  existsb (startsWith "   🌍 Website: ")
    (Legacy.stationPieces (host := EnUS.host) (RadioStation_obj Sample.bbc) 1)
  = true
  /\ last (Legacy.stationPieces (host := EnUS.host)
             (RadioStation_obj Sample.bbc) 1) EmptyString
     = "   🌍 Website: https://www.bbc.co.uk" ++ nl.
Proof.
  split; [ reflexivity | ].
  exact (proj1 (proj2 (proj2 (Legacy_optional_pieces EnUS.host
                                (RadioStation_obj Sample.bbc) 1)))
               eq_refl).
Defined.

(** X18. The builds do not share their method names: the first build
    answers each of [initialize], [tools/list] and [tools/call] with the
    [Unknown method] error envelope, and [src/index.ts] answers each of
    [list_tools] and [call_tool] that way; neither issues an upstream
    request for them. *)
Theorem method_names_are_not_shared
  (host : Host) (upstream : Upstream) (body : JsVal) (m : string) :
  field body "method" = JStr m ->
  (In m [ "initialize"; "tools/list"; "tools/call" ] ->
   run upstream (Legacy.handler body)
   = ([], inr (errorEnvelope (field body "id") (-32000)
                 ("Unknown method: " ++ m))))
  /\ (In m [ "list_tools"; "call_tool" ] ->
      run upstream (handler body)
      = ([], inr (errorEnvelope (field body "id") (-32000)
                    ("Unknown method: " ++ m)))).
Proof.
  intros M. pose proof (field_str_nullish _ _ _ M) as B. split; intros I.
  - rewrite (Legacy_run_handler upstream body B).
    unfold Legacy.tryBlock, destructure. rewrite B, M.
    destruct I as [<- | [<- | [<- | []]]]; reflexivity.
  - unfold handler. rewrite (run_mcpPost _ _ _ B).
    unfold tryBlock, destructure. rewrite B, M.
    destruct I as [<- | [<- | []]]; reflexivity.
Qed.

Lemma method_names_are_not_shared_witness :
  field (JObj [ ("id", JNum 1); ("method", JStr "initialize") ]) "method"
  = JStr "initialize"
  /\ In "initialize" [ "initialize"; "tools/list"; "tools/call" ]
  /\ run (Sample.answering (Sample.reply 0 "ok" None))
         (Legacy.handler (host := EnUS.host)
            (JObj [ ("id", JNum 1); ("method", JStr "initialize") ]))
     = ([], inr (errorEnvelope (JNum 1) (-32000) "Unknown method: initialize")).
Proof.
  assert (In "initialize" [ "initialize"; "tools/list"; "tools/call" ]) as I
    by (now left).
  split; [ reflexivity | ]. split; [ exact I | ].
  exact (proj1 (method_names_are_not_shared EnUS.host
                  (Sample.answering (Sample.reply 0 "ok" None))
                  (JObj [ ("id", JNum 1); ("method", JStr "initialize") ])
                  "initialize" eq_refl) I).
Defined.

(** X19. The first build issues the same single request under the same
    conditions as [src/index.ts], with [call_tool] in the place of
    [tools/call]: the search request when the tool is
    [search_radio_stations] and the query is truthy, and none otherwise;
    a missing query is rejected with the same envelope. *)
Theorem Legacy_upstream_requests
  (host : Host) (upstream : Upstream) (body : JsVal) :
  let params := field body "params" in
  let query := optField (field params "arguments") "query" in
  fst (run upstream (Legacy.handler body))
  = (if isStr (field body "method") "call_tool"
        && isStr (field params "name") "search_radio_stations"
        && truthy query
     then [ searchRequest query ] else [])
  /\ (field body "method" = JStr "call_tool" ->
      field params "name" = JStr "search_radio_stations" ->
      truthy query = false ->
      run upstream (Legacy.handler body)
      = ([], inr (errorEnvelope (field body "id") (-32000)
                    "Search query is required"))).
Proof.
  cbv zeta. split.
  - destruct (nullish body) eqn:B.
    { destruct body; try discriminate; reflexivity. }
    rewrite (Legacy_run_handler upstream body B).
    replace (fst _) with (fst (run upstream (Legacy.tryBlock body)))
      by (now destruct (run upstream (Legacy.tryBlock body)) as [calls [e|a]]).
    unfold Legacy.tryBlock, destructure. rewrite B. cbn [bind].
    destruct (isStr (field body "method") "list_tools") eqn:L.
    { apply isStr_true in L. rewrite L. reflexivity. }
    destruct (isStr (field body "method") "call_tool"); cbn [andb].
    + destruct (nullish (field body "params")) eqn:P.
      { destruct (field body "params"); try discriminate; reflexivity. }
      cbn [bind].
      destruct (isStr (field (field body "params") "name") "search_radio_stations");
        cbn [andb].
      * destruct (truthy _); cbn [negb]; [ | reflexivity ].
        cbn [axiosGet bind run].
        destruct (upstream _) as [apiData|message]; [ | reflexivity ].
        cbn [bind].
        pose proof (Legacy_afterAwait_no_call upstream (field body "id")
                      (optField (field (field body "params") "arguments") "query")
                      apiData) as C.
        destruct (run upstream (Legacy.afterAwait _ _ apiData)) as [calls r].
        simpl in *. now subst calls.
      * rewrite run_bind, run_str. now destruct (toString _).
    + rewrite run_bind, run_str. now destruct (toString _).
  - intros M N T.
    pose proof (field_str_nullish _ _ _ M) as B.
    pose proof (field_str_nullish _ _ _ N) as P.
    rewrite (Legacy_run_handler upstream body B).
    unfold Legacy.tryBlock, destructure. rewrite B, M, P, N. cbn [bind].
    cbn [isStr String.eqb Ascii.eqb Bool.eqb]. rewrite T. reflexivity.
Qed.

Lemma Legacy_upstream_requests_witness :
  field (JObj [ ("id", JNum 1); ("method", JStr "call_tool");
                ("params", JObj [ ("name", JStr "search_radio_stations") ]) ])
    "method" = JStr "call_tool"
  /\ run (Sample.answering (Sample.reply 0 "ok" None))
         (Legacy.handler (host := EnUS.host)
            (JObj [ ("id", JNum 1); ("method", JStr "call_tool");
                    ("params", JObj [ ("name", JStr "search_radio_stations") ]) ]))
     = ([], inr (errorEnvelope (JNum 1) (-32000) "Search query is required")).
Proof.
  split; [ reflexivity | ].
  exact (proj2 (Legacy_upstream_requests EnUS.host
                  (Sample.answering (Sample.reply 0 "ok" None))
                  (JObj [ ("id", JNum 1); ("method", JStr "call_tool");
                          ("params",
                           JObj [ ("name", JStr "search_radio_stations") ]) ]))
               eq_refl eq_refl eq_refl).
Defined.

(** ** The build of version 1.0.1 *)

Section LatestFacts.
Context {host : Host}.
Variable upstream : Upstream.

(** The [catch] of this build cannot throw, so every run ends in an
    answer. *)
Lemma Latest_run_handler (body : JsVal) :
  run upstream (Latest.handler body)
  = match run upstream (Latest.tryBlock body) with
    | (calls, inr response) => (calls, inr response)
    | (calls, inl error) =>
        (calls, inr (errorEnvelope (Latest.idOrNull body) (-32000)
                      (orElse (message error) "Internal server error")))
    end.
Proof.
  unfold Latest.handler. rewrite run_tryCatch.
  destruct (run upstream (Latest.tryBlock body)) as [calls [e|a]].
  - simpl. now rewrite app_nil_r.
  - reflexivity.
Qed.

Lemma Latest_afterAwait_run (id query : JsVal) (apiData : ApiResponse.t) :
  fst (run upstream (Latest.afterAwait id query apiData)) = []
  /\ forall response,
       snd (run upstream (Latest.afterAwait id query apiData)) = inr response ->
       exists text, response = resultEnvelope id (textContent text).
Proof.
  unfold Latest.afterAwait. destruct (negb _).
  { split; [ reflexivity | discriminate ]. }
  destruct (ApiResponse.Data _) as [[|g results]|];
    rewrite run_bind, run_str; destruct (toString query); simpl;
    (split; [ reflexivity | ]); intros response R; try discriminate;
    injection R as <-; eexists; reflexivity.
Qed.

Lemma Latest_tryBlock_returns (body response : JsVal) :
  snd (run upstream (Latest.tryBlock body)) = inr response ->
  exists members, response = resultEnvelope (field body "id") (JObj members).
Proof.
  unfold Latest.tryBlock, destructure.
  destruct (nullish body); [ discriminate | ]. cbn [bind].
  destruct (isStr (field body "method") "initialize").
  { intros R. injection R as <-. eexists. reflexivity. }
  destruct (isStr (field body "method") "tools/list").
  { intros R. injection R as <-. eexists. reflexivity. }
  destruct (isStr (field body "method") "tools/call").
  - destruct (nullish (field body "params")); [ discriminate | ]. cbn [bind].
    destruct (isStr (field (field body "params") "name") "search_radio_stations");
      cbn [negb].
    + destruct (negb _); [ discriminate | ].
      cbn [axiosGet bind run].
      destruct (upstream _) as [apiData|message]; [ | discriminate ].
      cbn [bind]. intros R.
      set (query := optField (field (field body "params") "arguments") "query")
        in *.
      destruct (Latest_afterAwait_run (field body "id") query apiData) as [_ A].
      destruct (run upstream (Latest.afterAwait (field body "id") query apiData))
        as [calls r].
      simpl in R. subst r.
      destruct (A response eq_refl) as [text ->].
      eexists. reflexivity.
    + rewrite run_bind, run_str. now destruct (toString _).
  - rewrite run_bind, run_str. now destruct (toString _).
Qed.

Lemma Latest_calls (body : JsVal) :
  fst (run upstream (Latest.handler body))
  = let query := optField (field (field body "params") "arguments") "query" in
    if isStr (field body "method") "tools/call"
       && isStr (field (field body "params") "name") "search_radio_stations"
       && truthy query
    then [searchRequest query] else [].
Proof.
  rewrite Latest_run_handler.
  replace (fst _) with (fst (run upstream (Latest.tryBlock body)))
    by (now destruct (run upstream (Latest.tryBlock body)) as [calls [e|a]]).
  cbv zeta. unfold Latest.tryBlock, destructure.
  destruct (nullish body) eqn:B.
  { destruct body; try discriminate; reflexivity. }
  cbn [bind].
  destruct (isStr (field body "method") "initialize") eqn:I.
  { apply isStr_true in I. rewrite I. reflexivity. }
  destruct (isStr (field body "method") "tools/list") eqn:L.
  { apply isStr_true in L. rewrite L. reflexivity. }
  destruct (isStr (field body "method") "tools/call"); cbn [andb].
  - destruct (nullish (field body "params")) eqn:P.
    { destruct (field body "params"); try discriminate; reflexivity. }
    cbn [bind].
    destruct (isStr (field (field body "params") "name") "search_radio_stations");
      cbn [andb negb].
    + destruct (truthy _); cbn [negb]; [ | reflexivity ].
      cbn [axiosGet bind run].
      destruct (upstream _) as [apiData|message]; [ | reflexivity ].
      cbn [bind].
      set (query := optField (field (field body "params") "arguments") "query").
      destruct (Latest_afterAwait_run (field body "id") query apiData) as [C _].
      destruct (run upstream (Latest.afterAwait (field body "id") query apiData))
        as [calls r].
      simpl in *. now subst calls.
    + rewrite run_bind, run_str. now destruct (toString _).
  - rewrite run_bind, run_str. now destruct (toString _).
Qed.
End LatestFacts.

(** X20. In version 1.0.1 no exception escapes the handler, whatever the
    body, [undefined] and [null] included: every answer is a JSON-RPC 2.0
    envelope with either a [result] object echoing the request [id], or an
    [error] of code -32000 with a message that is never empty. *)
Theorem Latest_always_answers
  (host : Host) (upstream : Upstream) (body : JsVal) :
  exists response,
    snd (run upstream (Latest.handler body)) = inr response
    /\ field response "jsonrpc" = JStr "2.0"
    /\ ((exists members, field response "result" = JObj members)
        /\ field response "error" = JUndefined
        /\ field response "id" = field body "id"
        \/ field response "result" = JUndefined
           /\ field (field response "error") "code" = JNum (-32000)
           /\ exists text, field (field response "error") "message" = JStr text
                           /\ text <> EmptyString).
Proof.
  rewrite Latest_run_handler.
  destruct (run upstream (Latest.tryBlock body)) as [calls [e|r]] eqn:R.
  - eexists. split; [ reflexivity | ]. split; [ reflexivity | ].
    right. repeat split.
    eexists. split; [ reflexivity | ]. now apply orElse_nonempty.
  - destruct (Latest_tryBlock_returns upstream body r) as [members ->];
      [ now rewrite R | ].
    eexists. split; [ reflexivity | ]. split; [ reflexivity | ].
    left. split; [ now exists members | ]. split; reflexivity.
Qed.

Example Latest_answers_an_undefined_body :
  run (Sample.answering (Sample.reply 0 "ok" None))
      (Latest.handler (host := EnUS.host) JUndefined)
  = ([], inr (errorEnvelope JNull (-32000)
                "Cannot destructure property 'method' of 'req.body' as it is undefined.")).
Proof. reflexivity. Qed.

(** X21. In version 1.0.1 an error envelope carries the request [id] only
    when that [id] is truthy and [null] otherwise, so a request with [id]
    0, the empty string, [false] or no [id] gets its error under [null],
    while a result envelope echoes the [id] as it is. *)
Theorem Latest_error_id
  (host : Host) (upstream : Upstream) (body : JsVal) (error : Exn) :
  snd (run upstream (Latest.tryBlock body)) = inl error ->
  snd (run upstream (Latest.handler body))
  = inr (JObj [ ("jsonrpc", JStr "2.0");
                ("id", if nullish body then JNull
                       else if truthy (field body "id") then field body "id"
                       else JNull);
                ("error", JObj [
                   ("code", JNum (-32000));
                   ("message",
                    JStr (if String.eqb (message error) EmptyString
                          then "Internal server error"
                          else message error)) ]) ]).
Proof.
  intros R. rewrite Latest_run_handler.
  destruct (run upstream (Latest.tryBlock body)) as [calls [e|r]];
    simpl in R; [ | discriminate ].
  injection R as ->. unfold Latest.idOrNull, optField.
  now destruct (nullish body).
Qed.

Lemma Latest_error_id_witness :
  snd (run (Sample.answering (Sample.reply 0 "ok" None))
         (Latest.tryBlock (host := EnUS.host)
            (JObj [ ("id", JNum 0); ("method", JStr "ping") ])))
  = inl (Error "Unknown method: ping")
  /\ snd (run (Sample.answering (Sample.reply 0 "ok" None))
            (Latest.handler (host := EnUS.host)
               (JObj [ ("id", JNum 0); ("method", JStr "ping") ])))
     = inr (errorEnvelope JNull (-32000) "Unknown method: ping").
Proof.
  split; [ reflexivity | ].
  exact (Latest_error_id EnUS.host
           (Sample.answering (Sample.reply 0 "ok" None))
           (JObj [ ("id", JNum 0); ("method", JStr "ping") ])
           (Error "Unknown method: ping") eq_refl).
Defined.

(** The result envelope of the same build keeps an [id] of 0. *)
Example Latest_result_id :
  snd (run (Sample.answering (Sample.reply 0 "ok" None))
         (Latest.handler (host := EnUS.host)
            (JObj [ ("id", JNum 0); ("method", JStr "initialize") ])))
  = inr (resultEnvelope (JNum 0) Latest.initializeResult).
Proof. reflexivity. Qed.

(** X22. Version 1.0.1 issues the same upstream requests as
    [src/index.ts], for every body and every upstream. *)
Theorem Latest_same_requests
  (host : Host) (upstream : Upstream) (body : JsVal) :
  fst (run upstream (Latest.handler body)) = fst (run upstream (handler body)).
Proof.
  unfold handler. now rewrite Latest_calls, mcpPost_calls.
Qed.
